(** * NodeRpcProxy: the client-side proxy of a remote daemon

    A shallow embedding of [src/node_rpc_proxy/NodeRpcProxy.cpp].

    The proxy object, the storage the callers lend to it and the log of
    what it does to the outside (transport requests, observer
    notifications, callback invocations) are threaded through a small
    state-and-log monad.  The transport is an oracle: every call takes the
    answer of the daemon as an argument, and an answer is either a value or
    a thrown [std::exception]. *)

From stdpp Require Import base strings list numbers functions.
From Stdlib Require Import ZArith Lia.
From Stdlib.Strings Require Import Byte.

Open Scope string_scope.
Open Scope list_scope.
Open Scope Z_scope.

(** ** Error codes *)

(** [error::NodeErrorCodes] of [NodeErrors.h], as far as this file uses them. *)
Inductive NodeErrorCodes :=
| NOT_INITIALIZED
| ALREADY_INITIALIZED
| NETWORK_ERROR
| NODE_BUSY
| INTERNAL_NODE_ERROR.

#[global] Instance NodeErrorCodes_eq_dec : EqDecision NodeErrorCodes.
Proof. solve_decision. Defined.

(** [std::error_code]: [None] is the default-constructed code (value 0, the
    one for which [!ec] holds), [Some e] is [make_error_code(e)]. *)
Definition error_code := option NodeErrorCodes.

Definition make_error_code (e : NodeErrorCodes) : error_code := Some e.

(** [!ec] *)
Definition no_error (ec : error_code) : bool :=
  match ec with None => true | Some _ => false end.

(** ** Values exchanged with the daemon *)

(** [crypto::hash]: 32 raw bytes, compared bytewise. *)
Definition hash := list byte.

#[global] Instance byte_eq_decision : EqDecision byte := byte_eq_dec.

Definition null_hash : hash := replicate 32 x00.

(** A call into the transport either returns or throws. *)
Inductive Outcome (A : Type) :=
| Threw
| Returned (a : A).
Arguments Threw {A}.
Arguments Returned {A} a.

(** Every response record of [core_rpc_server_commands_defs.h] has a
    [status] member; the command templates read it as [res.status]. *)
Class HasStatus (Response : Type) := status : Response -> string.

(** Modelled from the spec: the macros [CORE_RPC_STATUS_OK] and
    [CORE_RPC_STATUS_BUSY] of [core_rpc_server_commands_defs.h] are the
    recognized status values "OK" and "BUSY". *)
Definition CORE_RPC_STATUS_OK : string := "OK".
Definition CORE_RPC_STATUS_BUSY : string := "BUSY".

Record block_header_response := {
  bh_hash : string;
  bh_height : Z;
  bh_timestamp : Z }.

Record GET_LAST_BLOCK_HEADER_request := { }.
Record GET_LAST_BLOCK_HEADER_response := {
  glbh_status : string;
  block_header : block_header_response }.

Record GET_INFO_request := { }.
Record GET_INFO_response := {
  gi_status : string;
  incoming_connections_count : Z;
  outgoing_connections_count : Z }.

(** [CryptoNote::Transaction] is relayed as a blob; [tx_to_blob] and
    [blobToHex] are outside this file, a transaction is its hex blob. *)
Definition Transaction := string.

Record SEND_RAW_TX_request := { tx_as_hex : string }.
Record SEND_RAW_TX_response := { srt_status : string }.

Record out_entry := { global_amount_index : Z; out_key : string }.
Record outs_for_amount := { ofa_amount : Z; ofa_outs : list out_entry }.

Record GET_RANDOM_OUTPUTS_FOR_AMOUNTS_request := {
  amounts : list Z;
  outs_count : Z }.
Record GET_RANDOM_OUTPUTS_FOR_AMOUNTS_response := {
  outs : list outs_for_amount;
  gro_status : string }.

Record block_complete_entry := { bce_block : string; bce_txs : list string }.

Record GET_BLOCKS_FAST_request := { gbf_block_ids : list hash }.
Record GET_BLOCKS_FAST_response := {
  blocks : list block_complete_entry;
  gbf_start_height : Z;
  gbf_status : string }.

Record GET_TX_GLOBAL_OUTPUTS_INDEXES_request := { txid : hash }.
Record GET_TX_GLOBAL_OUTPUTS_INDEXES_response := {
  o_indexes : list Z;
  gto_status : string }.

(** One item of a query-blocks response, and the proxy's own record. *)
Record block_full_info := {
  block_id : hash;
  bfi_block : string;
  bfi_txs : list string }.

Record BlockCompleteEntry := {
  blockHash : hash;
  block : string;
  txs : list string }.

Record QUERY_BLOCKS_request := {
  qb_block_ids : list hash;
  qb_timestamp : Z }.
Record QUERY_BLOCKS_response := {
  qb_status : string;
  qb_start_height : Z;
  items : list block_full_info }.

#[global] Instance status_last_block_header : HasStatus GET_LAST_BLOCK_HEADER_response := glbh_status.
#[global] Instance status_get_info : HasStatus GET_INFO_response := gi_status.
#[global] Instance status_send_raw_tx : HasStatus SEND_RAW_TX_response := srt_status.
#[global] Instance status_random_outs : HasStatus GET_RANDOM_OUTPUTS_FOR_AMOUNTS_response := gro_status.
#[global] Instance status_blocks_fast : HasStatus GET_BLOCKS_FAST_response := gbf_status.
#[global] Instance status_o_indexes : HasStatus GET_TX_GLOBAL_OUTPUTS_INDEXES_response := gto_status.
#[global] Instance status_query_blocks : HasStatus QUERY_BLOCKS_response := qb_status.

(** [AUTO_VAL_INIT]: value initialization, numbers are zero and strings and
    containers are empty. *)
Class AutoValInit (A : Type) := AUTO_VAL_INIT : A.

#[global] Instance init_glbh_req : AutoValInit GET_LAST_BLOCK_HEADER_request := Build_GET_LAST_BLOCK_HEADER_request.
#[global] Instance init_glbh_rsp : AutoValInit GET_LAST_BLOCK_HEADER_response :=
  {| glbh_status := ""; block_header := {| bh_hash := ""; bh_height := 0; bh_timestamp := 0 |} |}.
#[global] Instance init_gi_req : AutoValInit GET_INFO_request := Build_GET_INFO_request.
#[global] Instance init_gi_rsp : AutoValInit GET_INFO_response :=
  {| gi_status := ""; incoming_connections_count := 0; outgoing_connections_count := 0 |}.
#[global] Instance init_srt_rsp : AutoValInit SEND_RAW_TX_response := {| srt_status := "" |}.
#[global] Instance init_gro_rsp : AutoValInit GET_RANDOM_OUTPUTS_FOR_AMOUNTS_response :=
  {| outs := []; gro_status := "" |}.
#[global] Instance init_gbf_rsp : AutoValInit GET_BLOCKS_FAST_response :=
  {| blocks := []; gbf_start_height := 0; gbf_status := "" |}.
#[global] Instance init_gto_rsp : AutoValInit GET_TX_GLOBAL_OUTPUTS_INDEXES_response :=
  {| o_indexes := []; gto_status := "" |}.
#[global] Instance init_qb_rsp : AutoValInit QUERY_BLOCKS_response :=
  {| qb_status := ""; qb_start_height := 0; items := [] |}.

(** ** The transport *)

Record HttpResponse := {
  getStatus : Z;
  getBody : string }.

(** Modelled from the spec: [HttpResponse::STATUS_200] of
    [HTTP/HttpResponse.h] is the outer HTTP status 200. *)
Definition STATUS_200 : Z := 200.

(** What the statements inside the [try] block of [jsonRpcCommand] do for
    one response type: building the envelope and [client.request] (which
    yields the HTTP response or throws), [jsRes.parse] of a body (which may
    throw), and [jsRes.getResult(res)] on the parsed body, which tells
    whether a result was extracted and what [res] holds afterwards. *)
Record JsonRpcClient (Request Response : Type) := {
  rpc_request : string -> Request -> Outcome HttpResponse;
  rpc_parse : string -> Outcome unit;
  rpc_getResult : string -> Response -> Outcome (bool * Response) }.
Arguments rpc_request {Request Response} _ _ _.
Arguments rpc_parse {Request Response} _ _.
Arguments rpc_getResult {Request Response} _ _ _.

(** [invokeBinaryCommand] and [invokeJsonCommand] for one command: given
    the path, the request and the response object to fill, the filled
    response or an exception. *)
Definition Invoke (Request Response : Type) :=
  string -> Request -> Response -> Outcome Response.

(** The daemon as one handler sees it through [*m_httpClient]. *)
Record HttpClient := {
  http_json_rpc : JsonRpcClient GET_LAST_BLOCK_HEADER_request GET_LAST_BLOCK_HEADER_response;
  http_getinfo : Invoke GET_INFO_request GET_INFO_response;
  http_sendrawtransaction : Invoke SEND_RAW_TX_request SEND_RAW_TX_response;
  http_getrandom_outs : Invoke GET_RANDOM_OUTPUTS_FOR_AMOUNTS_request GET_RANDOM_OUTPUTS_FOR_AMOUNTS_response;
  http_getblocks : Invoke GET_BLOCKS_FAST_request GET_BLOCKS_FAST_response;
  http_get_o_indexes : Invoke GET_TX_GLOBAL_OUTPUTS_INDEXES_request GET_TX_GLOBAL_OUTPUTS_INDEXES_response;
  http_queryblocks : Invoke QUERY_BLOCKS_request QUERY_BLOCKS_response }.

(** ** The proxy object *)

(** Modelled from the spec: the lifecycle states of [InitState.h]. *)
Inductive State :=
| NotInitialized
| Initializing
| Initialized
| ShuttingDown
| ShutDown.

#[global] Instance State_eq_dec : EqDecision State.
Proof. solve_decision. Defined.

(** Callers hand in closures and references.  A callback is named by a
    number, and so is a cell of the storage a caller lends for a result. *)
Definition Callback := nat.
Definition Ref := nat.

(** The error code a completed [async_wait] passes to its handler. *)
Inductive asio_error :=
| asio_success
| operation_aborted.

#[global] Instance asio_error_eq_dec : EqDecision asio_error.
Proof. solve_decision. Defined.

(** A handler waiting in [m_ioService]: the completion handler of the pull
    timer with the code it will be passed, or one of the [std::bind]
    closures the public operations post. *)
Inductive Task :=
| Task_pullTimer (ec : asio_error)
| Task_doRelayTransaction (transaction : Transaction) (callback : Callback)
| Task_doGetRandomOutsByAmounts (amounts : list Z) (outsCount : Z)
    (outs : Ref) (callback : Callback)
| Task_doGetNewBlocks (knownBlockIds : list hash) (newBlocks startHeight : Ref)
    (callback : Callback)
| Task_doGetTransactionOutsGlobalIndices (transactionHash : hash)
    (outsGlobalIndices : Ref) (callback : Callback)
| Task_doQueryBlocks (knownBlockIds : list hash) (timestamp : Z)
    (newBlocks startHeight : Ref) (callback : Callback).

#[global] Instance Task_eq_dec : EqDecision Task.
Proof. solve_decision. Defined.

(** [m_workerThread]: not a thread (not joinable), started with the body
    still to run, inside the event loop, or past the end of its body. *)
Inductive WorkerThread :=
| NotAThread
| Spawned (initialized_callback : Callback)
| InLoop
| Exited.

Definition joinable (t : WorkerThread) : bool :=
  match t with NotAThread => false | _ => true end.

Record NodeRpcProxy := {
  m_initState : State;
  m_workerThread : WorkerThread;
  m_ioService_stopped : bool;
  m_ioService_queue : list Task;
  (* [m_pullTimer]: whether an asynchronous wait is pending on it *)
  m_pullTimer : bool;
  m_peerCount : Z;
  m_nodeHeight : Z;
  m_networkHeight : Z;
  m_lastKnowHash : hash;
  m_lastLocalBlockTimestamp : Z }.

(** The storage callers lend by reference, one typed bank per kind of
    output parameter. *)
Record CallerMemory := {
  mem_outs : Ref -> list outs_for_amount;
  mem_blocks : Ref -> list block_complete_entry;
  mem_entries : Ref -> list BlockCompleteEntry;
  mem_uint64 : Ref -> Z;
  mem_indices : Ref -> list Z;
  mem_bool : Ref -> bool }.

Record World := {
  node : NodeRpcProxy;
  caller : CallerMemory }.

(** ** What the proxy does to the outside *)

Inductive CallShape := BinaryCall | JsonCall | JsonRpcCall.

#[global] Instance CallShape_eq_dec : EqDecision CallShape.
Proof. solve_decision. Defined.

(** The three members of [INodeObserver] the proxy notifies. *)
Inductive Notification :=
| peerCountUpdated (count : Z)
| localBlockchainUpdated (height : Z)
| lastKnownBlockHeightUpdated (height : Z).

#[global] Instance Notification_eq_dec : EqDecision Notification.
Proof. solve_decision. Defined.

Inductive Event :=
| EvRequest (shape : CallShape) (target : string)
| EvNotify (n : Notification)
| EvCallback (callback : Callback) (ec : error_code).

#[global] Instance Event_eq_dec : EqDecision Event.
Proof. solve_decision. Defined.

(** ** The monad: state of the world and a log of events *)

Definition M (A : Type) : Type := World -> A * World * list Event.

#[global] Instance M_ret : MRet M := fun A a w => (a, w, []).
#[global] Instance M_bind : MBind M := fun A B f m w =>
  let '(a, w1, l1) := m w in
  let '(b, w2, l2) := f a w1 in
  (b, w2, l1 ++ l2).

Definition emit (e : Event) : M unit := fun w => (tt, w, [e]).

Definition this : M NodeRpcProxy := fun w => (node w, w, []).

Definition update (f : NodeRpcProxy -> NodeRpcProxy) : M unit :=
  fun w => (tt, {| node := f (node w); caller := caller w |}, []).

Definition deref : M CallerMemory := fun w => (caller w, w, []).

Definition assign (f : CallerMemory -> CallerMemory) : M unit :=
  fun w => (tt, {| node := node w; caller := f (caller w) |}, []).

(** Running a computation: the value, the final world, the log. *)
Definition value_of {A} (r : A * World * list Event) : A := r.1.1.
Definition world_of {A} (r : A * World * list Event) : World := r.1.2.
Definition log_of {A} (r : A * World * list Event) : list Event := r.2.

(** Field setters of the proxy object. *)
Definition set_initState v p := {|
  m_initState := v; m_workerThread := m_workerThread p;
  m_ioService_stopped := m_ioService_stopped p; m_ioService_queue := m_ioService_queue p;
  m_pullTimer := m_pullTimer p; m_peerCount := m_peerCount p; m_nodeHeight := m_nodeHeight p;
  m_networkHeight := m_networkHeight p; m_lastKnowHash := m_lastKnowHash p;
  m_lastLocalBlockTimestamp := m_lastLocalBlockTimestamp p |}.
Definition set_workerThread v p := {|
  m_initState := m_initState p; m_workerThread := v;
  m_ioService_stopped := m_ioService_stopped p; m_ioService_queue := m_ioService_queue p;
  m_pullTimer := m_pullTimer p; m_peerCount := m_peerCount p; m_nodeHeight := m_nodeHeight p;
  m_networkHeight := m_networkHeight p; m_lastKnowHash := m_lastKnowHash p;
  m_lastLocalBlockTimestamp := m_lastLocalBlockTimestamp p |}.
Definition set_ioService_stopped v p := {|
  m_initState := m_initState p; m_workerThread := m_workerThread p;
  m_ioService_stopped := v; m_ioService_queue := m_ioService_queue p;
  m_pullTimer := m_pullTimer p; m_peerCount := m_peerCount p; m_nodeHeight := m_nodeHeight p;
  m_networkHeight := m_networkHeight p; m_lastKnowHash := m_lastKnowHash p;
  m_lastLocalBlockTimestamp := m_lastLocalBlockTimestamp p |}.
Definition set_ioService_queue v p := {|
  m_initState := m_initState p; m_workerThread := m_workerThread p;
  m_ioService_stopped := m_ioService_stopped p; m_ioService_queue := v;
  m_pullTimer := m_pullTimer p; m_peerCount := m_peerCount p; m_nodeHeight := m_nodeHeight p;
  m_networkHeight := m_networkHeight p; m_lastKnowHash := m_lastKnowHash p;
  m_lastLocalBlockTimestamp := m_lastLocalBlockTimestamp p |}.
Definition set_pullTimer v p := {|
  m_initState := m_initState p; m_workerThread := m_workerThread p;
  m_ioService_stopped := m_ioService_stopped p; m_ioService_queue := m_ioService_queue p;
  m_pullTimer := v; m_peerCount := m_peerCount p; m_nodeHeight := m_nodeHeight p;
  m_networkHeight := m_networkHeight p; m_lastKnowHash := m_lastKnowHash p;
  m_lastLocalBlockTimestamp := m_lastLocalBlockTimestamp p |}.
Definition set_peerCount v p := {|
  m_initState := m_initState p; m_workerThread := m_workerThread p;
  m_ioService_stopped := m_ioService_stopped p; m_ioService_queue := m_ioService_queue p;
  m_pullTimer := m_pullTimer p; m_peerCount := v; m_nodeHeight := m_nodeHeight p;
  m_networkHeight := m_networkHeight p; m_lastKnowHash := m_lastKnowHash p;
  m_lastLocalBlockTimestamp := m_lastLocalBlockTimestamp p |}.
Definition set_nodeHeight v p := {|
  m_initState := m_initState p; m_workerThread := m_workerThread p;
  m_ioService_stopped := m_ioService_stopped p; m_ioService_queue := m_ioService_queue p;
  m_pullTimer := m_pullTimer p; m_peerCount := m_peerCount p; m_nodeHeight := v;
  m_networkHeight := m_networkHeight p; m_lastKnowHash := m_lastKnowHash p;
  m_lastLocalBlockTimestamp := m_lastLocalBlockTimestamp p |}.
Definition set_networkHeight v p := {|
  m_initState := m_initState p; m_workerThread := m_workerThread p;
  m_ioService_stopped := m_ioService_stopped p; m_ioService_queue := m_ioService_queue p;
  m_pullTimer := m_pullTimer p; m_peerCount := m_peerCount p; m_nodeHeight := m_nodeHeight p;
  m_networkHeight := v; m_lastKnowHash := m_lastKnowHash p;
  m_lastLocalBlockTimestamp := m_lastLocalBlockTimestamp p |}.
Definition set_lastKnowHash v p := {|
  m_initState := m_initState p; m_workerThread := m_workerThread p;
  m_ioService_stopped := m_ioService_stopped p; m_ioService_queue := m_ioService_queue p;
  m_pullTimer := m_pullTimer p; m_peerCount := m_peerCount p; m_nodeHeight := m_nodeHeight p;
  m_networkHeight := m_networkHeight p; m_lastKnowHash := v;
  m_lastLocalBlockTimestamp := m_lastLocalBlockTimestamp p |}.
Definition set_lastLocalBlockTimestamp v p := {|
  m_initState := m_initState p; m_workerThread := m_workerThread p;
  m_ioService_stopped := m_ioService_stopped p; m_ioService_queue := m_ioService_queue p;
  m_pullTimer := m_pullTimer p; m_peerCount := m_peerCount p; m_nodeHeight := m_nodeHeight p;
  m_networkHeight := m_networkHeight p; m_lastKnowHash := m_lastKnowHash p;
  m_lastLocalBlockTimestamp := v |}.

(** Writes through the references of the callers. *)
Definition store_outs (r : Ref) v m := {|
  mem_outs := <[r := v]> (mem_outs m); mem_blocks := mem_blocks m;
  mem_entries := mem_entries m; mem_uint64 := mem_uint64 m;
  mem_indices := mem_indices m; mem_bool := mem_bool m |}.
Definition store_blocks (r : Ref) v m := {|
  mem_outs := mem_outs m; mem_blocks := <[r := v]> (mem_blocks m);
  mem_entries := mem_entries m; mem_uint64 := mem_uint64 m;
  mem_indices := mem_indices m; mem_bool := mem_bool m |}.
Definition store_entries (r : Ref) v m := {|
  mem_outs := mem_outs m; mem_blocks := mem_blocks m;
  mem_entries := <[r := v]> (mem_entries m); mem_uint64 := mem_uint64 m;
  mem_indices := mem_indices m; mem_bool := mem_bool m |}.
Definition store_uint64 (r : Ref) v m := {|
  mem_outs := mem_outs m; mem_blocks := mem_blocks m;
  mem_entries := mem_entries m; mem_uint64 := <[r := v]> (mem_uint64 m);
  mem_indices := mem_indices m; mem_bool := mem_bool m |}.
Definition store_indices (r : Ref) v m := {|
  mem_outs := mem_outs m; mem_blocks := mem_blocks m;
  mem_entries := mem_entries m; mem_uint64 := mem_uint64 m;
  mem_indices := <[r := v]> (mem_indices m); mem_bool := mem_bool m |}.
Definition store_bool (r : Ref) v m := {|
  mem_outs := mem_outs m; mem_blocks := mem_blocks m;
  mem_entries := mem_entries m; mem_uint64 := mem_uint64 m;
  mem_indices := mem_indices m; mem_bool := <[r := v]> (mem_bool m) |}.

(** Invoking a callback of a caller, and [m_observerManager.notify]. *)
Definition invoke (callback : Callback) (ec : error_code) : M unit :=
  emit (EvCallback callback ec).
Definition notify (n : Notification) : M unit := emit (EvNotify n).

(** ** Command dispatcher *)

Definition interpretResponseStatus (status : string) : error_code :=
  if decide (CORE_RPC_STATUS_BUSY = status) then
    make_error_code NODE_BUSY
  else if decide (CORE_RPC_STATUS_OK ≠ status) then
    make_error_code INTERNAL_NODE_ERROR
  else
    None.

Section Dispatcher.
Context {Request Response : Type} `{!HasStatus Response}.

Definition binaryCommand (invokeBinaryCommand : Invoke Request Response)
    (url : string) (req : Request) (res : Response) : M (error_code * Response) :=
  emit (EvRequest BinaryCall url);;
  match invokeBinaryCommand url req res with
  | Returned res => mret (interpretResponseStatus (status res), res)
  | Threw => mret (make_error_code NETWORK_ERROR, res)
  end.

Definition jsonCommand (invokeJsonCommand : Invoke Request Response)
    (url : string) (req : Request) (res : Response) : M (error_code * Response) :=
  emit (EvRequest JsonCall url);;
  match invokeJsonCommand url req res with
  | Returned res => mret (interpretResponseStatus (status res), res)
  | Threw => mret (make_error_code NETWORK_ERROR, res)
  end.

Definition jsonRpcCommand (client : JsonRpcClient Request Response)
    (method : string) (req : Request) (res : Response) : M (error_code * Response) :=
  let ec := make_error_code INTERNAL_NODE_ERROR in
  emit (EvRequest JsonRpcCall method);;
  match rpc_request client method req with
  | Threw => mret (make_error_code NETWORK_ERROR, res)
  | Returned httpRes =>
      if decide (getStatus httpRes = STATUS_200) then
        match rpc_parse client (getBody httpRes) with
        | Threw => mret (make_error_code NETWORK_ERROR, res)
        | Returned _ =>
            match rpc_getResult client (getBody httpRes) res with
            | Threw => mret (make_error_code NETWORK_ERROR, res)
            | Returned (true, res) => mret (interpretResponseStatus (status res), res)
            | Returned (false, res) => mret (ec, res)
            end
        end
      else mret (ec, res)
  end.
End Dispatcher.

(** ** Lifecycle state machine *)

(** Modelled from the spec: [InitState::beginInit] succeeds only from
    NotInitialized or ShutDown and moves to Initializing. *)
Definition beginInit (s : State) : bool * State :=
  match s with
  | NotInitialized | ShutDown => (true, Initializing)
  | _ => (false, s)
  end.

(** Modelled from the spec: [InitState::endInit] moves Initializing to
    Initialized and fails in any other state. *)
Definition endInit (s : State) : bool * State :=
  match s with
  | Initializing => (true, Initialized)
  | _ => (false, s)
  end.

(** Modelled from the spec: [InitState::beginShutdown] succeeds only when
    Initialized, moving to ShuttingDown, and fails otherwise. *)
Definition beginShutdown (s : State) : bool * State :=
  match s with
  | Initialized => (true, ShuttingDown)
  | _ => (false, s)
  end.

(** Modelled from the spec: [InitState::endShutdown] moves ShuttingDown to
    ShutDown. *)
Definition endShutdown (s : State) : bool * State :=
  match s with
  | ShuttingDown => (true, ShutDown)
  | _ => (false, s)
  end.

(** Modelled from the spec: [InitState::initialized] tells whether the
    lifecycle state is Initialized. *)
Definition initialized (s : State) : bool := bool_decide (s = Initialized).

(** A transition of [m_initState] as a step of the monad. *)
Definition on_initState (f : State -> bool * State) : M bool :=
  p ← this;
  let '(ok, s) := f (m_initState p) in
  update (set_initState s);;
  mret ok.

(** ** Timer and event queue *)

(** [m_ioService.post(handler)] *)
Definition post (t : Task) : M unit :=
  update (fun p => set_ioService_queue (m_ioService_queue p ++ [t]) p).

(** Completing the pending wait of [m_pullTimer], if there is one, with the
    code [ec]: its handler becomes ready in [m_ioService]. *)
Definition complete_wait (ec : asio_error) : M unit :=
  p ← this;
  if m_pullTimer p then
    update (set_pullTimer false);;
    post (Task_pullTimer ec)
  else mret tt.

(** [m_pullTimer.cancel(ignored_ec)]: the pending wait completes with
    [operation_aborted]. *)
Definition pullTimer_cancel : M unit := complete_wait operation_aborted.

(** The deadline passes while a wait is pending. *)
Definition pullTimer_expire : M unit := complete_wait asio_success.

(** [m_pullTimer.expires_from_now(..)] cancels a pending wait before it
    sets the new deadline. *)
Definition pullTimer_expires_from_now : M unit := complete_wait operation_aborted.

(** [m_pullTimer.async_wait(handler)] *)
Definition pullTimer_async_wait : M unit := update (set_pullTimer true).

(** [m_ioService.stop()] *)
Definition ioService_stop : M unit := update (set_ioService_stopped true).

(** ** The proxy *)

(** [size_t] and [uint64_t] are both 64 bits wide on the platforms the
    daemon is built for; the sum of two counters wraps around. *)
Definition uint64_add (a b : Z) : Z := (a + b) mod 2 ^ 64.

(** The object after the constructor has run. *)
Definition NodeRpcProxy_new : NodeRpcProxy := {|
  m_initState := NotInitialized;
  m_workerThread := NotAThread;
  m_ioService_stopped := false;
  m_ioService_queue := [];
  m_pullTimer := false;
  m_peerCount := 0;
  m_nodeHeight := 0;
  m_networkHeight := 0;
  m_lastKnowHash := null_hash;
  m_lastLocalBlockTimestamp := 0 |}.

Definition resetInternalState : M unit :=
  update (set_ioService_stopped false);;
  update (set_peerCount 0);;
  update (set_nodeHeight 0);;
  update (set_networkHeight 0);;
  update (set_lastKnowHash null_hash).

Definition init (callback : Callback) : M unit :=
  ok ← on_initState beginInit;
  if negb ok then
    invoke callback (make_error_code ALREADY_INITIALIZED)
  else
    resetInternalState;;
    update (set_workerThread (Spawned callback)).

(** [shutdown]: the join returns once the worker has left its loop, which
    the stopped [m_ioService] makes it do; the thread object is not a
    thread afterwards. *)
Definition shutdown : M bool :=
  ok ← on_initState beginShutdown;
  if negb ok then
    mret false
  else
    pullTimer_cancel;;
    ioService_stop;;
    p ← this;
    (if joinable (m_workerThread p) then
       update (set_workerThread NotAThread);;
       on_initState endShutdown;;
       mret tt
     else mret tt);;
    mret true.

Definition getPeerCount (p : NodeRpcProxy) : Z := m_peerCount p.
Definition getLastLocalBlockHeight (p : NodeRpcProxy) : Z := m_nodeHeight p.
Definition getLastKnownBlockHeight (p : NodeRpcProxy) : Z := m_networkHeight p.
Definition getLocalBlockCount (p : NodeRpcProxy) : Z := m_nodeHeight p.
Definition getKnownBlockCount (p : NodeRpcProxy) : Z := m_networkHeight p.
Definition getLastLocalBlockTimestamp (p : NodeRpcProxy) : Z := m_lastLocalBlockTimestamp p.

Definition updatePeerCount (client : HttpClient) : M unit :=
  let req : GET_INFO_request := AUTO_VAL_INIT in
  let rsp : GET_INFO_response := AUTO_VAL_INIT in
  '(ec, rsp) ← jsonCommand (http_getinfo client) "/getinfo" req rsp;
  if no_error ec then
    let peerCount :=
      uint64_add (incoming_connections_count rsp) (outgoing_connections_count rsp) in
    p ← this;
    if decide (peerCount ≠ m_peerCount p) then
      update (set_peerCount peerCount);;
      p ← this;
      notify (peerCountUpdated (m_peerCount p))
    else mret tt
  else mret tt.

Section Poller.
(** [parse_hash256] of [cryptonote_format_utils.h]: the hash a string
    denotes, if it denotes one. *)
Variable parse_hash256 : string -> option hash.

(** The block that runs when the header call went through tells whether
    the function returned from inside it. *)
Definition updateNodeStatus (client : HttpClient) : M unit :=
  let req : GET_LAST_BLOCK_HEADER_request := AUTO_VAL_INIT in
  let rsp : GET_LAST_BLOCK_HEADER_response := AUTO_VAL_INIT in
  '(ec, rsp) ← jsonRpcCommand (http_json_rpc client) "getlastblockheader" req rsp;
  returned ←
    (if no_error ec then
       match parse_hash256 (bh_hash (block_header rsp)) with
       | None => mret true
       | Some blockHash =>
           p ← this;
           (if decide (blockHash ≠ m_lastKnowHash p) then
              update (set_lastKnowHash blockHash);;
              update (set_nodeHeight (bh_height (block_header rsp)));;
              update (set_lastLocalBlockTimestamp (bh_timestamp (block_header rsp)));;
              p ← this;
              update (set_networkHeight (m_nodeHeight p));;
              p ← this;
              notify (lastKnownBlockHeightUpdated (m_networkHeight p));;
              notify (localBlockchainUpdated (m_nodeHeight p))
            else mret tt);;
           mret false
       end
     else mret false);
  if returned : bool then mret tt else updatePeerCount client.

Definition pullNodeStatusAndScheduleTheNext (client : HttpClient) : M unit :=
  updateNodeStatus client;;
  pullTimer_expires_from_now;;
  pullTimer_async_wait.

(** The lambda handed to [async_wait]. *)
Definition pullTimer_handler (client : HttpClient) (ec : asio_error) : M unit :=
  if decide (ec ≠ operation_aborted) then
    pullNodeStatusAndScheduleTheNext client
  else mret tt.

(** The body of the worker thread up to its event loop. *)
Definition workerThread (client : HttpClient) (initialized_callback : Callback) : M unit :=
  ok ← on_initState endInit;
  if negb ok then
    update (set_workerThread Exited)
  else
    invoke initialized_callback None;;
    pullNodeStatusAndScheduleTheNext client;;
    update (set_workerThread InLoop).
End Poller.

(** ** Asynchronous operations *)

Definition relayTransaction (transaction : Transaction) (callback : Callback) : M unit :=
  p ← this;
  if negb (initialized (m_initState p)) then
    invoke callback (make_error_code NOT_INITIALIZED)
  else
    post (Task_doRelayTransaction transaction callback).

Definition getRandomOutsByAmounts (amounts : list Z) (outsCount : Z) (outs : Ref)
    (callback : Callback) : M unit :=
  p ← this;
  if negb (initialized (m_initState p)) then
    invoke callback (make_error_code NOT_INITIALIZED)
  else
    post (Task_doGetRandomOutsByAmounts amounts outsCount outs callback).

Definition getNewBlocks (knownBlockIds : list hash) (newBlocks startHeight : Ref)
    (callback : Callback) : M unit :=
  p ← this;
  if negb (initialized (m_initState p)) then
    invoke callback (make_error_code NOT_INITIALIZED)
  else
    post (Task_doGetNewBlocks knownBlockIds newBlocks startHeight callback).

Definition getTransactionOutsGlobalIndices (transactionHash : hash)
    (outsGlobalIndices : Ref) (callback : Callback) : M unit :=
  p ← this;
  if negb (initialized (m_initState p)) then
    invoke callback (make_error_code NOT_INITIALIZED)
  else
    post (Task_doGetTransactionOutsGlobalIndices transactionHash outsGlobalIndices callback).

Definition queryBlocks (knownBlockIds : list hash) (timestamp : Z)
    (newBlocks startHeight : Ref) (callback : Callback) : M unit :=
  p ← this;
  if negb (initialized (m_initState p)) then
    invoke callback (make_error_code NOT_INITIALIZED)
  else
    post (Task_doQueryBlocks knownBlockIds timestamp newBlocks startHeight callback).

Definition getPoolSymmetricDifference (known_pool_tx_ids : list hash)
    (known_block_id : hash) (is_bc_actual new_txs deleted_tx_ids : Ref)
    (callback : Callback) : M unit :=
  assign (store_bool is_bc_actual true);;
  invoke callback None.

(** A range-based [for] over a container. *)
Fixpoint for_each {A} (l : list A) (body : A -> M unit) : M unit :=
  match l with
  | [] => mret tt
  | x :: l => body x;; for_each l body
  end.

Definition doRelayTransaction (client : HttpClient) (transaction : Transaction)
    (callback : Callback) : M unit :=
  let rsp : SEND_RAW_TX_response := AUTO_VAL_INIT in
  let req := {| tx_as_hex := transaction |} in
  '(ec, rsp) ← jsonCommand (http_sendrawtransaction client) "/sendrawtransaction" req rsp;
  invoke callback ec.

Definition doGetRandomOutsByAmounts (client : HttpClient) (amounts : list Z)
    (outsCount : Z) (outs_ref : Ref) (callback : Callback) : M unit :=
  let rsp : GET_RANDOM_OUTPUTS_FOR_AMOUNTS_response := AUTO_VAL_INIT in
  let req := {| amounts := amounts; outs_count := outsCount |} in
  '(ec, rsp) ← binaryCommand (http_getrandom_outs client) "/getrandom_outs.bin" req rsp;
  (if no_error ec then
     assign (store_outs outs_ref (outs rsp))
   else mret tt);;
  invoke callback ec.

Definition doGetNewBlocks (client : HttpClient) (knownBlockIds : list hash)
    (newBlocks startHeight : Ref) (callback : Callback) : M unit :=
  let rsp : GET_BLOCKS_FAST_response := AUTO_VAL_INIT in
  let req := {| gbf_block_ids := knownBlockIds |} in
  '(ec, rsp) ← binaryCommand (http_getblocks client) "/getblocks.bin" req rsp;
  (if no_error ec then
     assign (store_blocks newBlocks (blocks rsp));;
     assign (store_uint64 startHeight (gbf_start_height rsp))
   else mret tt);;
  invoke callback ec.

Definition doGetTransactionOutsGlobalIndices (client : HttpClient)
    (transactionHash : hash) (outsGlobalIndices : Ref) (callback : Callback) : M unit :=
  let rsp : GET_TX_GLOBAL_OUTPUTS_INDEXES_response := AUTO_VAL_INIT in
  let req := {| txid := transactionHash |} in
  '(ec, rsp) ← binaryCommand (http_get_o_indexes client) "/get_o_indexes.bin" req rsp;
  (if no_error ec then
     assign (store_indices outsGlobalIndices (o_indexes rsp))
   else mret tt);;
  invoke callback ec.

(** [newBlocks.push_back(entry)] *)
Definition push_back_entry (newBlocks : Ref) (entry : BlockCompleteEntry) : M unit :=
  assign (fun m => store_entries newBlocks (mem_entries m newBlocks ++ [entry]) m).

Definition doQueryBlocks (client : HttpClient) (knownBlockIds : list hash)
    (timestamp : Z) (newBlocks startHeight : Ref) (callback : Callback) : M unit :=
  let rsp : QUERY_BLOCKS_response := AUTO_VAL_INIT in
  let req := {| qb_block_ids := knownBlockIds; qb_timestamp := timestamp |} in
  '(ec, rsp) ← binaryCommand (http_queryblocks client) "/queryblocks.bin" req rsp;
  (if no_error ec then
     for_each (items rsp) (fun item =>
       let entry := {|
         blockHash := block_id item;
         block := bfi_block item;
         txs := bfi_txs item |} in
       push_back_entry newBlocks entry);;
     assign (store_uint64 startHeight (qb_start_height rsp))
   else mret tt);;
  invoke callback ec.

(** ** The public asynchronous operations as one type *)

Inductive AsyncCall :=
| call_relayTransaction (transaction : Transaction) (callback : Callback)
| call_getRandomOutsByAmounts (amounts : list Z) (outsCount : Z) (outs : Ref)
    (callback : Callback)
| call_getNewBlocks (knownBlockIds : list hash) (newBlocks startHeight : Ref)
    (callback : Callback)
| call_getTransactionOutsGlobalIndices (transactionHash : hash)
    (outsGlobalIndices : Ref) (callback : Callback)
| call_queryBlocks (knownBlockIds : list hash) (timestamp : Z)
    (newBlocks startHeight : Ref) (callback : Callback)
| call_getPoolSymmetricDifference (known_pool_tx_ids : list hash)
    (known_block_id : hash) (is_bc_actual new_txs deleted_tx_ids : Ref)
    (callback : Callback).

Definition call (c : AsyncCall) : M unit :=
  match c with
  | call_relayTransaction transaction callback => relayTransaction transaction callback
  | call_getRandomOutsByAmounts amounts outsCount outs callback =>
      getRandomOutsByAmounts amounts outsCount outs callback
  | call_getNewBlocks knownBlockIds newBlocks startHeight callback =>
      getNewBlocks knownBlockIds newBlocks startHeight callback
  | call_getTransactionOutsGlobalIndices transactionHash outsGlobalIndices callback =>
      getTransactionOutsGlobalIndices transactionHash outsGlobalIndices callback
  | call_queryBlocks knownBlockIds timestamp newBlocks startHeight callback =>
      queryBlocks knownBlockIds timestamp newBlocks startHeight callback
  | call_getPoolSymmetricDifference ids id is_bc_actual new_txs deleted_tx_ids callback =>
      getPoolSymmetricDifference ids id is_bc_actual new_txs deleted_tx_ids callback
  end.

Definition callback_of (c : AsyncCall) : Callback :=
  match c with
  | call_relayTransaction _ callback
  | call_getRandomOutsByAmounts _ _ _ callback
  | call_getNewBlocks _ _ _ callback
  | call_getTransactionOutsGlobalIndices _ _ callback
  | call_queryBlocks _ _ _ _ callback
  | call_getPoolSymmetricDifference _ _ _ _ _ callback => callback
  end.

Definition is_getPoolSymmetricDifference (c : AsyncCall) : bool :=
  match c with
  | call_getPoolSymmetricDifference _ _ _ _ _ _ => true
  | _ => false
  end.

(** ** The worker loop *)

Section Worker.
Variable parse_hash256 : string -> option hash.

(** Running one ready handler. *)
Definition run_task (client : HttpClient) (t : Task) : M unit :=
  match t with
  | Task_pullTimer ec => pullTimer_handler parse_hash256 client ec
  | Task_doRelayTransaction transaction callback =>
      doRelayTransaction client transaction callback
  | Task_doGetRandomOutsByAmounts amounts outsCount outs callback =>
      doGetRandomOutsByAmounts client amounts outsCount outs callback
  | Task_doGetNewBlocks knownBlockIds newBlocks startHeight callback =>
      doGetNewBlocks client knownBlockIds newBlocks startHeight callback
  | Task_doGetTransactionOutsGlobalIndices transactionHash outsGlobalIndices callback =>
      doGetTransactionOutsGlobalIndices client transactionHash outsGlobalIndices callback
  | Task_doQueryBlocks knownBlockIds timestamp newBlocks startHeight callback =>
      doQueryBlocks client knownBlockIds timestamp newBlocks startHeight callback
  end.

(** [m_ioService.run_one()] with a handler ready: a stopped service runs
    nothing, otherwise the first ready handler is taken out and run. *)
Definition run_one (client : HttpClient) : M unit :=
  p ← this;
  if m_ioService_stopped p then mret tt
  else
    match m_ioService_queue p with
    | [] => mret tt
    | t :: q =>
        update (set_ioService_queue q);;
        run_task client t
    end.

(** What can happen to a proxy between [init] and the end of [shutdown],
    one atomic action at a time: the deadline of the timer passes, the
    worker runs one handler against whatever the daemon answers at that
    moment, a caller invokes an operation, and the two effects of
    [shutdown] on the loop, which the worker can observe one after the
    other. *)
Inductive LoopAction :=
| act_expire
| act_run_one (client : HttpClient)
| act_call (c : AsyncCall)
| act_cancel
| act_stop.

Definition perform (a : LoopAction) : M unit :=
  match a with
  | act_expire => pullTimer_expire
  | act_run_one client => run_one client
  | act_call c => call c
  | act_cancel => pullTimer_cancel
  | act_stop => ioService_stop
  end.

(** One action, with the events it logs. *)
Inductive step : World -> list Event -> World -> Prop :=
| step_perform a w :
    step w (log_of (perform a w)) (world_of (perform a w)).

(** Finite runs of the loop, with the concatenated log. *)
Inductive steps : World -> list Event -> World -> Prop :=
| steps_refl w : steps w [] w
| steps_cons w1 l1 w2 l2 w3 :
    step w1 l1 w2 -> steps w2 l2 w3 -> steps w1 (l1 ++ l2) w3.

(** The states the object is in between two whole actions: the
    constructor, then any of [init], [shutdown], the start of the worker
    body and the actions of the loop, each run to its end.  The states in
    the middle of a handler, which a reader on another thread can observe,
    are not among them. *)
Inductive reachable : World -> Prop :=
| reach_new m : reachable {| node := NodeRpcProxy_new; caller := m |}
| reach_init callback w :
    reachable w -> reachable (world_of (init callback w))
| reach_shutdown w :
    reachable w -> reachable (world_of (shutdown w))
| reach_workerThread client callback w :
    reachable w -> m_workerThread (node w) = Spawned callback ->
    reachable (world_of (workerThread parse_hash256 client callback w))
| reach_step w l w' :
    reachable w -> step w l w' -> reachable w'.
End Worker.

(** ** Reading a log *)

Definition is_height_notification (e : Event) : bool :=
  match e with
  | EvNotify (lastKnownBlockHeightUpdated _) | EvNotify (localBlockchainUpdated _) => true
  | _ => false
  end.

Definition is_peer_notification (e : Event) : bool :=
  match e with
  | EvNotify (peerCountUpdated _) => true
  | _ => false
  end.

Definition is_notification (e : Event) : bool :=
  match e with EvNotify _ => true | _ => false end.

Definition is_callback (e : Event) : bool :=
  match e with EvCallback _ _ => true | _ => false end.

Definition is_request (e : Event) : bool :=
  match e with EvRequest _ _ => true | _ => false end.

(** A fire of the poller starts with the header call. *)
Definition is_poll (e : Event) : bool :=
  bool_decide (e = EvRequest JsonRpcCall "getlastblockheader").

Definition height_notifications (l : list Event) : list Event := List.filter is_height_notification l.
Definition peer_notifications (l : list Event) : list Event := List.filter is_peer_notification l.
Definition notifications (l : list Event) : list Event := List.filter is_notification l.
Definition callbacks (l : list Event) : list Event := List.filter is_callback l.
Definition requests (l : list Event) : list Event := List.filter is_request l.
Definition polls (l : list Event) : list Event := List.filter is_poll l.

(** The status snapshot of a proxy. *)
Definition snapshot (p : NodeRpcProxy) : Z * Z * Z * hash * Z :=
  (m_peerCount p, m_nodeHeight p, m_networkHeight p, m_lastKnowHash p,
   m_lastLocalBlockTimestamp p).

(** The answer a computation gives in a world. *)
Definition answer {A} (m : M A) (w : World) : A := value_of (m w).

(** ** An instance of [parse_hash256] to evaluate examples with:
    sixty-four hexadecimal digits denote the thirty-two bytes they spell. *)

Definition hex_digit (c : Ascii.ascii) : option N :=
  let n := Ascii.N_of_ascii c in
  if ((48 <=? n) && (n <=? 57))%N then Some (n - 48)%N
  else if ((97 <=? n) && (n <=? 102))%N then Some (n - 87)%N
  else if ((65 <=? n) && (n <=? 70))%N then Some (n - 55)%N
  else None.

Fixpoint hex_bytes (s : string) : option (list byte) :=
  match s with
  | EmptyString => Some []
  | String a (String b s) =>
      match hex_digit a, hex_digit b, hex_bytes s with
      | Some h, Some l, Some bs =>
          match Byte.of_N (16 * h + l) with
          | Some x => Some (x :: bs)
          | None => None
          end
      | _, _, _ => None
      end
  | String _ EmptyString => None
  end.

Definition hex_parse_hash256 (s : string) : option hash :=
  match hex_bytes s with
  | Some bs => if decide (length bs = 32%nat) then Some bs else None
  | None => None
  end.

(** * Vocabulary of the properties

    Readings of the model that the statements below use, and concrete
    worlds and daemons to evaluate it on. *)

(** A world to evaluate examples in: the object as constructed, and
    storage of the callers that holds nothing yet. *)
Definition empty_memory : CallerMemory := {|
  mem_outs := fun _ => [];
  mem_blocks := fun _ => [];
  mem_entries := fun _ => [];
  mem_uint64 := fun _ => 0;
  mem_indices := fun _ => [];
  mem_bool := fun _ => false |}.

Definition world0 : World := {| node := NodeRpcProxy_new; caller := empty_memory |}.


(** How a JSON-RPC exchange ends once the exceptions are set apart:
    [Threw] when a statement of the [try] block threw, [Returned (Some r)]
    when the HTTP status was 200 and a result was extracted into [r],
    [Returned None] when the status was not 200 or no result could be
    extracted. *)
Definition rpc_exchange {Request Response : Type}
    (client : JsonRpcClient Request Response)
    (method : string) (req : Request) (res : Response) : Outcome (option Response) :=
  match rpc_request client method req with
  | Threw => Threw
  | Returned httpRes =>
      if decide (getStatus httpRes = STATUS_200) then
        match rpc_parse client (getBody httpRes) with
        | Threw => Threw
        | Returned _ =>
            match rpc_getResult client (getBody httpRes) res with
            | Threw => Threw
            | Returned (true, r) => Returned (Some r)
            | Returned (false, _) => Returned None
            end
        end
      else Returned None
  end.


(** The lifecycle state and the thread object. *)
Definition lifecycle (p : NodeRpcProxy) : State * WorkerThread :=
  (m_initState p, m_workerThread p).

(** The answers of the daemon to the two calls of a fire. *)
Definition header_answer (client : HttpClient) (w : World)
  : error_code * GET_LAST_BLOCK_HEADER_response :=
  answer (jsonRpcCommand (http_json_rpc client) "getlastblockheader"
            AUTO_VAL_INIT AUTO_VAL_INIT) w.

Definition getinfo_answer (client : HttpClient) (w : World)
  : error_code * GET_INFO_response :=
  answer (jsonCommand (http_getinfo client) "/getinfo" AUTO_VAL_INIT AUTO_VAL_INIT) w.

(** The total peer count a get-info response carries. *)
Definition total_peers (rsp : GET_INFO_response) : Z :=
  uint64_add (incoming_connections_count rsp) (outgoing_connections_count rsp).

(** The proxy after it has taken over a new last block. *)
Definition accept_block (blockHash : hash) (header : block_header_response)
    (p : NodeRpcProxy) : NodeRpcProxy :=
  set_networkHeight (bh_height header)
    (set_lastLocalBlockTimestamp (bh_timestamp header)
       (set_nodeHeight (bh_height header) (set_lastKnowHash blockHash p))).

(** A daemon given by its answer to each command.  A JSON-RPC answer comes
    with the HTTP status 200 and its result can be extracted. *)
Definition daemon
    (header : Outcome GET_LAST_BLOCK_HEADER_response)
    (info : Outcome GET_INFO_response)
    (sent : Outcome SEND_RAW_TX_response)
    (random_outs : Outcome GET_RANDOM_OUTPUTS_FOR_AMOUNTS_response)
    (new_blocks : Outcome GET_BLOCKS_FAST_response)
    (indices : Outcome GET_TX_GLOBAL_OUTPUTS_INDEXES_response)
    (queried : Outcome QUERY_BLOCKS_response) : HttpClient := {|
  http_json_rpc := {|
    rpc_request := fun _ _ =>
      match header with
      | Threw => Threw
      | Returned _ => Returned {| getStatus := 200; getBody := "" |}
      end;
    rpc_parse := fun _ => Returned tt;
    rpc_getResult := fun _ res =>
      match header with
      | Threw => Threw
      | Returned r => Returned (true, r)
      end |};
  http_getinfo := fun _ _ _ => info;
  http_sendrawtransaction := fun _ _ _ => sent;
  http_getrandom_outs := fun _ _ _ => random_outs;
  http_getblocks := fun _ _ _ => new_blocks;
  http_get_o_indexes := fun _ _ _ => indices;
  http_queryblocks := fun _ _ _ => queried |}.

(** A daemon that only answers the two calls of the poller. *)
Definition polled_daemon (header : Outcome GET_LAST_BLOCK_HEADER_response)
    (info : Outcome GET_INFO_response) : HttpClient :=
  daemon header info Threw Threw Threw Threw Threw.

Definition header_of (status hash_string : string) (height timestamp : Z)
  : GET_LAST_BLOCK_HEADER_response := {|
  glbh_status := status;
  block_header := {| bh_hash := hash_string; bh_height := height; bh_timestamp := timestamp |} |}.

Definition info_of (status : string) (incoming outgoing : Z) : GET_INFO_response := {|
  gi_status := status;
  incoming_connections_count := incoming;
  outgoing_connections_count := outgoing |}.

(** Sixty-four digits 1: the hash of thirty-two bytes 0x11. *)
Definition hash_string_11 : string :=
  "1111111111111111111111111111111111111111111111111111111111111111".

(** The error code the dispatcher call of a queued operation returns. *)
Definition dispatched (client : HttpClient) (t : Task) (w : World) : error_code :=
  match t with
  | Task_pullTimer _ => None
  | Task_doRelayTransaction transaction _ =>
      (answer (jsonCommand (http_sendrawtransaction client) "/sendrawtransaction"
                 {| tx_as_hex := transaction |} AUTO_VAL_INIT) w).1
  | Task_doGetRandomOutsByAmounts amounts outsCount _ _ =>
      (answer (binaryCommand (http_getrandom_outs client) "/getrandom_outs.bin"
                 {| amounts := amounts; outs_count := outsCount |} AUTO_VAL_INIT) w).1
  | Task_doGetNewBlocks knownBlockIds _ _ _ =>
      (answer (binaryCommand (http_getblocks client) "/getblocks.bin"
                 {| gbf_block_ids := knownBlockIds |} AUTO_VAL_INIT) w).1
  | Task_doGetTransactionOutsGlobalIndices transactionHash _ _ =>
      (answer (binaryCommand (http_get_o_indexes client) "/get_o_indexes.bin"
                 {| txid := transactionHash |} AUTO_VAL_INIT) w).1
  | Task_doQueryBlocks knownBlockIds timestamp _ _ _ =>
      (answer (binaryCommand (http_queryblocks client) "/queryblocks.bin"
                 {| qb_block_ids := knownBlockIds; qb_timestamp := timestamp |}
                 AUTO_VAL_INIT) w).1
  end.

Definition is_operation (t : Task) : bool :=
  match t with Task_pullTimer _ => false | _ => true end.

Definition task_callback (t : Task) : Callback :=
  match t with
  | Task_pullTimer _ => 0%nat
  | Task_doRelayTransaction _ callback
  | Task_doGetRandomOutsByAmounts _ _ _ callback
  | Task_doGetNewBlocks _ _ _ callback
  | Task_doGetTransactionOutsGlobalIndices _ _ callback
  | Task_doQueryBlocks _ _ _ _ callback => callback
  end.

(** The block entry [doQueryBlocks] makes of an item of the response. *)
Definition entry_of (item : block_full_info) : BlockCompleteEntry := {|
  blockHash := block_id item;
  block := bfi_block item;
  txs := bfi_txs item |}.

(** The proxy object after a [shutdown] that went through. *)
Definition after_shutdown (p : NodeRpcProxy) : NodeRpcProxy :=
  let p1 := set_initState ShuttingDown p in
  let p2 :=
    if m_pullTimer p1 then
      set_ioService_queue (m_ioService_queue p1 ++ [Task_pullTimer operation_aborted])
        (set_pullTimer false p1)
    else p1 in
  let p3 := set_ioService_stopped true p2 in
  if joinable (m_workerThread p3) then
    set_initState ShutDown (set_workerThread NotAThread p3)
  else p3.

(** The proxy object after an [init] that went through. *)
Definition after_init (callback : Callback) (p : NodeRpcProxy) : NodeRpcProxy :=
  set_workerThread (Spawned callback)
    (set_lastKnowHash null_hash
       (set_networkHeight 0
          (set_nodeHeight 0
             (set_peerCount 0
                (set_ioService_stopped false (set_initState Initializing p)))))).



(** A proxy that has been initialized against a daemon out of reach: the
    worker has entered its loop and a wait is pending on the timer. *)
Definition unreachable_daemon : HttpClient := polled_daemon Threw Threw.

Definition running_world : World :=
  world_of (workerThread hex_parse_hash256 unreachable_daemon 7%nat
              (world_of (init 7%nat world0))).

(** A proxy whose first fire has taken over a block of height 7. *)
Definition synced_daemon : HttpClient :=
  polled_daemon (Returned (header_of "OK" hash_string_11 7 9))
                (Returned (info_of "OK" 3 4)).

Definition synced_world : World :=
  world_of (workerThread hex_parse_hash256 synced_daemon 7%nat
              (world_of (init 7%nat world0))).



(** The completions of the pull timer that are still to lead to a fire:
    the pending wait, and every completion that is ready with success. *)
Definition timer_tokens (p : NodeRpcProxy) : nat :=
  ((if m_pullTimer p then 1 else 0)
   + length (List.filter (fun t => bool_decide (t = Task_pullTimer asio_success))
               (m_ioService_queue p)))%nat.


(** A proxy in the state Initialized whose loop runs and has nothing
    queued. *)
Definition idle (p : NodeRpcProxy) : Prop :=
  m_initState p = Initialized ∧ m_ioService_stopped p = false ∧ m_ioService_queue p = [].

(** The task an operation posts, for the five operations that post one. *)
Definition task_of (c : AsyncCall) : option Task :=
  match c with
  | call_relayTransaction transaction callback =>
      Some (Task_doRelayTransaction transaction callback)
  | call_getRandomOutsByAmounts amounts outsCount outs callback =>
      Some (Task_doGetRandomOutsByAmounts amounts outsCount outs callback)
  | call_getNewBlocks knownBlockIds newBlocks startHeight callback =>
      Some (Task_doGetNewBlocks knownBlockIds newBlocks startHeight callback)
  | call_getTransactionOutsGlobalIndices transactionHash outsGlobalIndices callback =>
      Some (Task_doGetTransactionOutsGlobalIndices transactionHash outsGlobalIndices callback)
  | call_queryBlocks knownBlockIds timestamp newBlocks startHeight callback =>
      Some (Task_doQueryBlocks knownBlockIds timestamp newBlocks startHeight callback)
  | call_getPoolSymmetricDifference _ _ _ _ _ _ => None
  end.

(** What one fire of the poller finds, read off the answers of the daemon
    and the proxy it runs on: the new last block, when the header call goes
    through with a hash that parses and differs from the last known one;
    whether the fire gets as far as the get-info call; the new peer count,
    when it does and the call succeeds with a total other than the cached
    one. *)
Definition new_block (parse_hash256 : string -> option hash) (client : HttpClient)
    (w : World) : option (hash * block_header_response) :=
  let header := block_header (header_answer client w).2 in
  if no_error (header_answer client w).1 then
    match parse_hash256 (bh_hash header) with
    | Some blockHash =>
        if decide (blockHash ≠ m_lastKnowHash (node w)) then Some (blockHash, header)
        else None
    | None => None
    end
  else None.

Definition reaches_getinfo (parse_hash256 : string -> option hash) (client : HttpClient)
    (w : World) : bool :=
  if no_error (header_answer client w).1 then
    match parse_hash256 (bh_hash (block_header (header_answer client w).2)) with
    | Some _ => true
    | None => false
    end
  else true.

Definition new_peer_count (parse_hash256 : string -> option hash) (client : HttpClient)
    (w : World) : option Z :=
  if reaches_getinfo parse_hash256 client w
     && no_error (getinfo_answer client w).1
     && bool_decide (total_peers (getinfo_answer client w).2 ≠ m_peerCount (node w))
  then Some (total_peers (getinfo_answer client w).2)
  else None.

(** What the status snapshot of a proxy always satisfies: the network
    height mirrors the node height, and the peer count fits [size_t]. *)
Definition snapshot_ok (p : NodeRpcProxy) : Prop :=
  m_networkHeight p = m_nodeHeight p ∧ 0 <= m_peerCount p < 2 ^ 64.

(** A daemon whose two connection counters add up to more than fits 64
    bits. *)
Definition crowded_daemon : HttpClient :=
  polled_daemon (Returned (header_of "OK" hash_string_11 7 9))
                (Returned (info_of "OK" (2 ^ 64 - 1) 8)).

Definition crowded_world : World :=
  world_of (workerThread hex_parse_hash256 crowded_daemon 7%nat
              (world_of (init 7%nat world0))).

(** The request a handler sends when it runs. *)
Definition request_of (t : Task) : Event :=
  match t with
  | Task_pullTimer _ => EvRequest JsonRpcCall "getlastblockheader"
  | Task_doRelayTransaction _ _ => EvRequest JsonCall "/sendrawtransaction"
  | Task_doGetRandomOutsByAmounts _ _ _ _ => EvRequest BinaryCall "/getrandom_outs.bin"
  | Task_doGetNewBlocks _ _ _ _ => EvRequest BinaryCall "/getblocks.bin"
  | Task_doGetTransactionOutsGlobalIndices _ _ _ => EvRequest BinaryCall "/get_o_indexes.bin"
  | Task_doQueryBlocks _ _ _ _ _ => EvRequest BinaryCall "/queryblocks.bin"
  end.

(** A running proxy with a relayed transaction waiting in its queue. *)
Definition busy_world : World :=
  world_of (relayTransaction "0a0b" 3%nat running_world).

(** A daemon that accepts relayed transactions and serves one block. *)
Definition serving_daemon : HttpClient :=
  daemon Threw Threw
    (Returned {| srt_status := "OK" |})
    (Returned {| outs := [{| ofa_amount := 5; ofa_outs := [] |}]; gro_status := "OK" |})
    (Returned {| blocks := [{| bce_block := "block"; bce_txs := ["tx"] |}];
                 gbf_start_height := 10; gbf_status := "OK" |})
    (Returned {| o_indexes := [4; 2]; gto_status := "OK" |})
    (Returned {| qb_status := "OK"; qb_start_height := 42;
                 items := [{| block_id := null_hash; bfi_block := "b1";
                              bfi_txs := ["t1"] |}] |}).

(** Storage of a caller that already holds a block, outputs and indices in
    the cells 1 and 2. *)
Definition used_memory : CallerMemory := {|
  mem_outs := fun _ => [{| ofa_amount := 1; ofa_outs := [] |}];
  mem_blocks := fun _ => [{| bce_block := "old"; bce_txs := [] |}];
  mem_entries := fun _ => [{| blockHash := null_hash; block := "old"; txs := [] |}];
  mem_uint64 := fun _ => 3;
  mem_indices := fun _ => [9];
  mem_bool := fun _ => false |}.

Definition used_world : World := {| node := node running_world; caller := used_memory |}.

(** * Properties *)

(** Unfolding the monad, so that a computation runs by simplification. *)
Ltac run_monad :=
  unfold answer, value_of, world_of, log_of, invoke, notify, post, on_initState;
  unfold emit, this, update, deref, assign;
  unfold mbind, M_bind, mret, M_ret;
  simpl.

(** ** Command dispatcher *)


Section DispatcherFacts.
Context {Request Response : Type} `{!HasStatus Response}.

Lemma binaryCommand_log (i : Invoke Request Response) url req res w :
  binaryCommand i url req res w =
    (answer (binaryCommand i url req res) w, w, [EvRequest BinaryCall url]).
Proof. unfold binaryCommand. run_monad. by destruct (i url req res). Qed.

Lemma jsonCommand_log (i : Invoke Request Response) url req res w :
  jsonCommand i url req res w =
    (answer (jsonCommand i url req res) w, w, [EvRequest JsonCall url]).
Proof. unfold jsonCommand. run_monad. by destruct (i url req res). Qed.

Lemma jsonRpcCommand_log (c : JsonRpcClient Request Response) method req res w :
  jsonRpcCommand c method req res w =
    (answer (jsonRpcCommand c method req res) w, w, [EvRequest JsonRpcCall method]).
Proof.
  unfold jsonRpcCommand. run_monad.
  destruct (rpc_request c method req); [done|].
  case_decide; [|done].
  destruct (rpc_parse c _); [done|].
  by destruct (rpc_getResult c _ res) as [|[[] ?]].
Qed.

(** The answer of a command does not depend on the world it runs in. *)
Lemma binaryCommand_answer (i : Invoke Request Response) url req res w w' :
  answer (binaryCommand i url req res) w = answer (binaryCommand i url req res) w'.
Proof. unfold binaryCommand. run_monad. by destruct (i url req res). Qed.

Lemma jsonCommand_answer (i : Invoke Request Response) url req res w w' :
  answer (jsonCommand i url req res) w = answer (jsonCommand i url req res) w'.
Proof. unfold jsonCommand. run_monad. by destruct (i url req res). Qed.

Lemma jsonRpcCommand_answer (c : JsonRpcClient Request Response) method req res w w' :
  answer (jsonRpcCommand c method req res) w = answer (jsonRpcCommand c method req res) w'.
Proof.
  unfold jsonRpcCommand. run_monad.
  destruct (rpc_request c method req); [done|].
  case_decide; [|done].
  destruct (rpc_parse c _); [done|].
  by destruct (rpc_getResult c _ res) as [|[[] ?]].
Qed.

End DispatcherFacts.


(** ** Effects of the building blocks on the proxy object *)

Lemma for_each_push_back (r : Ref) (f : block_full_info -> BlockCompleteEntry)
    (l : list block_full_info) (w : World) :
  let res := for_each l (fun item => push_back_entry r (f item)) w in
  node (world_of res) = node w
  ∧ log_of res = []
  ∧ mem_entries (caller (world_of res)) r = mem_entries (caller w) r ++ map f l
  ∧ (∀ r', r' ≠ r -> mem_entries (caller (world_of res)) r' = mem_entries (caller w) r')
  ∧ mem_outs (caller (world_of res)) = mem_outs (caller w)
  ∧ mem_blocks (caller (world_of res)) = mem_blocks (caller w)
  ∧ mem_uint64 (caller (world_of res)) = mem_uint64 (caller w)
  ∧ mem_indices (caller (world_of res)) = mem_indices (caller w)
  ∧ mem_bool (caller (world_of res)) = mem_bool (caller w).
Proof.
  revert w. induction l as [|item l IH]; intros w.
  - simpl. run_monad. by rewrite app_nil_r.
  - simpl for_each. unfold push_back_entry at 1. run_monad.
    set (w1 := {| node := node w; caller := _ |}).
    specialize (IH w1). simpl in IH.
    unfold world_of, log_of in IH.
    destruct (for_each l _ w1) as [[[] w2] l2]. simpl in *.
    destruct IH as (Hn & Hl & He & Ho & ? & ? & ? & ? & ?).
    subst l2. split_and!; try done.
    + rewrite He. unfold w1. simpl.
      rewrite fn_lookup_insert. by rewrite <- app_assoc.
    + intros r' Hr'. rewrite (Ho r' Hr'). unfold w1. simpl.
      by rewrite fn_lookup_insert_ne.
Qed.

(** ** One fire of the poller, step by step *)

Lemma header_answer_indep client w w' : header_answer client w = header_answer client w'.
Proof. apply jsonRpcCommand_answer. Qed.

Lemma getinfo_answer_indep client w w' : getinfo_answer client w = getinfo_answer client w'.
Proof. apply jsonCommand_answer. Qed.

Lemma updatePeerCount_run (client : HttpClient) (w : World) :
  updatePeerCount client w =
    if no_error (getinfo_answer client w).1
       && bool_decide (total_peers (getinfo_answer client w).2 ≠ m_peerCount (node w))
    then (tt,
          {| node := set_peerCount (total_peers (getinfo_answer client w).2) (node w);
             caller := caller w |},
          [EvRequest JsonCall "/getinfo";
           EvNotify (peerCountUpdated (total_peers (getinfo_answer client w).2))])
    else (tt, w, [EvRequest JsonCall "/getinfo"]).
Proof.
  unfold updatePeerCount, getinfo_answer.
  unfold mbind at 1. unfold M_bind at 1.
  rewrite jsonCommand_log.
  destruct (answer _ w) as [ec rsp]. simpl.
  destruct w as [p m].
  destruct ec as [e|]; simpl; [done|].
  run_monad. fold (total_peers rsp).
  case_decide; case_bool_decide; done.
Qed.

Section PollerFacts.
Variable parse_hash256 : string -> option hash.

Lemma updateNodeStatus_run (client : HttpClient) (w : World) :
  updateNodeStatus parse_hash256 client w =
    let header := block_header (header_answer client w).2 in
    let poll := EvRequest JsonRpcCall "getlastblockheader" in
    if no_error (header_answer client w).1 then
      match parse_hash256 (bh_hash header) with
      | None => (tt, w, [poll])
      | Some blockHash =>
          if decide (blockHash ≠ m_lastKnowHash (node w)) then
            let w1 := {| node := accept_block blockHash header (node w);
                         caller := caller w |} in
            (tt, world_of (updatePeerCount client w1),
             [poll; EvNotify (lastKnownBlockHeightUpdated (bh_height header));
              EvNotify (localBlockchainUpdated (bh_height header))]
             ++ log_of (updatePeerCount client w1))
          else
            (tt, world_of (updatePeerCount client w),
             poll :: log_of (updatePeerCount client w))
      end
    else
      (tt, world_of (updatePeerCount client w),
       poll :: log_of (updatePeerCount client w)).
Proof.
  unfold updateNodeStatus, header_answer.
  unfold mbind at 1. unfold M_bind at 1.
  rewrite jsonRpcCommand_log.
  destruct (answer _ w) as [ec rsp]. simpl.
  destruct w as [p m].
  destruct ec as [e|]; simpl.
  - run_monad. by destruct (updatePeerCount client _) as [[[] ?] ?].
  - destruct (parse_hash256 _) as [blockHash|]; [|done].
    run_monad. case_decide; simpl.
    + unfold accept_block. simpl.
      by destruct (updatePeerCount client _) as [[[] ?] ?].
    + by destruct (updatePeerCount client _) as [[[] ?] ?].
Qed.

Lemma pullNodeStatusAndScheduleTheNext_run (client : HttpClient) (w : World) :
  let r := updateNodeStatus parse_hash256 client w in
  pullNodeStatusAndScheduleTheNext parse_hash256 client w =
    (tt,
     {| node :=
          set_pullTimer true
            (if m_pullTimer (node (world_of r)) then
               set_ioService_queue
                 (m_ioService_queue (node (world_of r)) ++ [Task_pullTimer operation_aborted])
                 (set_pullTimer false (node (world_of r)))
             else node (world_of r));
        caller := caller (world_of r) |},
     log_of r).
Proof.
  unfold pullNodeStatusAndScheduleTheNext. simpl.
  unfold mbind at 1. unfold M_bind at 1.
  destruct (updateNodeStatus parse_hash256 client w) as [[[] [p m]] l].
  unfold pullTimer_expires_from_now, pullTimer_async_wait, complete_wait.
  run_monad. destruct (m_pullTimer p); simpl; by rewrite app_nil_r.
Qed.
End PollerFacts.

(** ** Daemons to evaluate examples against *)

(** ** Status poller *)

Section PollerClaims.
Variable parse_hash256 : string -> option hash.

(** The timer bookkeeping of a fire touches neither the log nor the
    status snapshot nor the storage of the callers. *)
Lemma fire_is_updateNodeStatus (client : HttpClient) (w : World) :
  let fire := pullNodeStatusAndScheduleTheNext parse_hash256 client w in
  let r := updateNodeStatus parse_hash256 client w in
  log_of fire = log_of r
  ∧ snapshot (node (world_of fire)) = snapshot (node (world_of r))
  ∧ caller (world_of fire) = caller (world_of r).
Proof.
  simpl. rewrite pullNodeStatusAndScheduleTheNext_run.
  unfold log_of, world_of. simpl.
  by destruct (m_pullTimer _).
Qed.

(** C3, as amended.  In a fire whose header call succeeds with a hash that
    parses: when the hash equals the last known hash no height notification
    is sent; when it differs, one lastKnownBlockHeightUpdated and one
    localBlockchainUpdated notification are sent, in this order, each with
    the new height.  The peer-count notification is sent exactly when the
    get-info call succeeds with a total that differs from the cached peer
    count, whatever the hash. *)
Theorem poller_notifications (client : HttpClient) (w : World)
    (rsp : GET_LAST_BLOCK_HEADER_response) (blockHash : hash) :
  header_answer client w = (None, rsp) ->
  parse_hash256 (bh_hash (block_header rsp)) = Some blockHash ->
  let l := log_of (pullNodeStatusAndScheduleTheNext parse_hash256 client w) in
  let height := bh_height (block_header rsp) in
  let total := total_peers (getinfo_answer client w).2 in
  height_notifications l =
    (if decide (blockHash = m_lastKnowHash (node w)) then []
     else [EvNotify (lastKnownBlockHeightUpdated height);
           EvNotify (localBlockchainUpdated height)])
  ∧ peer_notifications l =
    (if no_error (getinfo_answer client w).1
        && bool_decide (total ≠ m_peerCount (node w))
     then [EvNotify (peerCountUpdated total)] else []).
Proof.
  intros Hh Hp. simpl.
  destruct (fire_is_updateNodeStatus client w) as (-> & _ & _).
  rewrite updateNodeStatus_run. rewrite Hh. simpl. rewrite Hp.
  case_decide as Hne.
  - rewrite decide_False by done.
    rewrite updatePeerCount_run.
    rewrite (getinfo_answer_indep client _ w). simpl.
    destruct (no_error _ && _); done.
  - rewrite decide_True by (by destruct (decide (blockHash = m_lastKnowHash (node w)))).
    rewrite updatePeerCount_run.
    destruct (no_error _ && _); done.
Qed.
End PollerClaims.

Lemma poller_notifications_witness :
  let client :=
    polled_daemon (Returned (header_of "OK" hash_string_11 7 9))
                  (Returned (info_of "OK" 3 4)) in
  let l := log_of (pullNodeStatusAndScheduleTheNext hex_parse_hash256 client world0) in
  header_answer client world0 = (None, header_of "OK" hash_string_11 7 9)
  ∧ hex_parse_hash256 hash_string_11 = Some (replicate 32 x11)
  ∧ height_notifications l =
      [EvNotify (lastKnownBlockHeightUpdated 7); EvNotify (localBlockchainUpdated 7)]
  ∧ peer_notifications l = [EvNotify (peerCountUpdated 7)].
Proof.
  split; [reflexivity|]. split; [reflexivity|].
  exact (poller_notifications hex_parse_hash256
           (polled_daemon (Returned (header_of "OK" hash_string_11 7 9))
                          (Returned (info_of "OK" 3 4)))
           world0 (header_of "OK" hash_string_11 7 9) (replicate 32 x11)
           eq_refl eq_refl).
Defined.

(** C3 fails as stated: the header call succeeds with a hash that differs
    from the last known one, and two notifications that carry the new
    height are sent, not one. *)
Lemma poller_sends_two_height_notifications :
  let client :=
    polled_daemon (Returned (header_of "OK" hash_string_11 7 9))
                  (Returned (info_of "OK" 3 4)) in
  let l := log_of (pullNodeStatusAndScheduleTheNext hex_parse_hash256 client world0) in
  header_answer client world0 = (None, header_of "OK" hash_string_11 7 9)
  ∧ hex_parse_hash256 hash_string_11 = Some (replicate 32 x11)
  ∧ replicate 32 x11 ≠ m_lastKnowHash (node world0)
  ∧ height_notifications l =
      [EvNotify (lastKnownBlockHeightUpdated 7); EvNotify (localBlockchainUpdated 7)]
  ∧ length (height_notifications l) ≠ 1%nat.
Proof. split_and!; by vm_compute. Qed.

Section PollerErrors.
Variable parse_hash256 : string -> option hash.

(** When the header call goes through and the hash it carries does not
    parse, the fire ends there: the header call is the only request. *)
Lemma bad_hash_skips_getinfo (client : HttpClient) (w : World) :
  (header_answer client w).1 = None ->
  parse_hash256 (bh_hash (block_header (header_answer client w).2)) = None ->
  let fire := pullNodeStatusAndScheduleTheNext parse_hash256 client w in
  log_of fire = [EvRequest JsonRpcCall "getlastblockheader"]
  ∧ snapshot (node (world_of fire)) = snapshot (node w).
Proof.
  intros He Hp. simpl.
  destruct (fire_is_updateNodeStatus parse_hash256 client w) as (-> & -> & _).
  rewrite updateNodeStatus_run. rewrite He. simpl. by rewrite Hp.
Qed.

(** In every other fire the get-info call is issued, once and after the
    header call, and a total that differs from the cached peer count is
    stored and notified. *)
Lemma getinfo_issued (client : HttpClient) (w : World) :
  (header_answer client w).1 ≠ None
  ∨ is_Some (parse_hash256 (bh_hash (block_header (header_answer client w).2))) ->
  let fire := pullNodeStatusAndScheduleTheNext parse_hash256 client w in
  let total := total_peers (getinfo_answer client w).2 in
  requests (log_of fire) =
    [EvRequest JsonRpcCall "getlastblockheader"; EvRequest JsonCall "/getinfo"]
  ∧ ((getinfo_answer client w).1 = None -> total ≠ m_peerCount (node w) ->
     m_peerCount (node (world_of fire)) = total
     ∧ peer_notifications (log_of fire) = [EvNotify (peerCountUpdated total)]).
Proof.
  intros H. simpl.
  destruct (fire_is_updateNodeStatus parse_hash256 client w) as (-> & Hs & _).
  assert (m_peerCount (node (world_of
            (pullNodeStatusAndScheduleTheNext parse_hash256 client w))) =
          m_peerCount (node (world_of (updateNodeStatus parse_hash256 client w))))
    as -> by (unfold snapshot in Hs; congruence).
  clear Hs. rewrite updateNodeStatus_run. simpl.
  destruct (header_answer client w) as [[e|] rsp] eqn:Hh; simpl in *.
  - rewrite updatePeerCount_run.
    destruct (getinfo_answer client w) as [[e'|] rsp'] eqn:Hi; simpl; [done|].
    case_bool_decide; simpl; split; try done; intros _ ?; done.
  - destruct H as [?|[blockHash Hp]]; [done|]. rewrite Hp.
    case_decide.
    + rewrite updatePeerCount_run.
      rewrite (getinfo_answer_indep client _ w). simpl.
      destruct (getinfo_answer client w) as [[e'|] rsp'] eqn:Hi; simpl; [done|].
      case_bool_decide; simpl; split; try done; intros _ ?; done.
    + rewrite updatePeerCount_run.
      destruct (getinfo_answer client w) as [[e'|] rsp'] eqn:Hi; simpl; [done|].
      case_bool_decide; simpl; split; try done; intros _ ?; done.
Qed.
End PollerErrors.

(** C4 fails on the code: the header call goes through with the status
    "OK" and a hash string that is not hexadecimal; the fire returns before
    the get-info call, and the peer count stays 0 although the daemon would
    report 7 peers. *)
Theorem bad_hash_fire_issues_no_getinfo :
  let client :=
    polled_daemon (Returned (header_of "OK" "zz" 7 9)) (Returned (info_of "OK" 3 4)) in
  let fire := pullNodeStatusAndScheduleTheNext hex_parse_hash256 client world0 in
  header_answer client world0 = (None, header_of "OK" "zz" 7 9)
  ∧ hex_parse_hash256 "zz" = None
  ∧ getinfo_answer client world0 = (None, info_of "OK" 3 4)
  ∧ total_peers (info_of "OK" 3 4) = 7
  ∧ requests (log_of fire) = [EvRequest JsonRpcCall "getlastblockheader"]
  ∧ m_peerCount (node (world_of fire)) = 0
  ∧ peer_notifications (log_of fire) = [].
Proof. split_and!; by vm_compute. Qed.

(** Closing a conjunction of implications between ground facts. *)
Ltac swallowed := repeat (first [split | intro]); first [done | congruence].

Section PollerSwallows.
Variable parse_hash256 : string -> option hash.

(** C7, as amended.  In a fire in which a dispatcher call returns an error,
    that call changes nothing: an error of the header call leaves the node
    height, the network height, the last known hash and the last local
    block timestamp as they were and no height notification is sent; an
    error of the get-info call leaves the peer count as it was and no
    peer-count notification is sent; when both calls return an error the
    whole snapshot is as it was and nothing is notified.  No callback is
    invoked and no storage of a caller is written. *)
Theorem poller_errors_are_swallowed (client : HttpClient) (w : World) :
  (header_answer client w).1 ≠ None ∨ (getinfo_answer client w).1 ≠ None ->
  let fire := pullNodeStatusAndScheduleTheNext parse_hash256 client w in
  let p := node w in
  let p' := node (world_of fire) in
  ((header_answer client w).1 ≠ None ->
     m_nodeHeight p' = m_nodeHeight p
     ∧ m_networkHeight p' = m_networkHeight p
     ∧ m_lastKnowHash p' = m_lastKnowHash p
     ∧ m_lastLocalBlockTimestamp p' = m_lastLocalBlockTimestamp p
     ∧ height_notifications (log_of fire) = [])
  ∧ ((getinfo_answer client w).1 ≠ None ->
     m_peerCount p' = m_peerCount p
     ∧ peer_notifications (log_of fire) = [])
  ∧ ((header_answer client w).1 ≠ None -> (getinfo_answer client w).1 ≠ None ->
     snapshot p' = snapshot p
     ∧ notifications (log_of fire) = [])
  ∧ callbacks (log_of fire) = []
  ∧ caller (world_of fire) = caller w.
Proof.
  intros _. simpl.
  destruct (fire_is_updateNodeStatus parse_hash256 client w) as (-> & Hs & ->).
  unfold snapshot in *.
  injection Hs as -> -> -> -> ->.
  rewrite updateNodeStatus_run. simpl.
  destruct (header_answer client w) as [[e|] rsp] eqn:Hh; simpl.
  - rewrite updatePeerCount_run.
    destruct (getinfo_answer client w) as [[e'|] rsp'] eqn:Hi; simpl.
    + swallowed.
    + case_bool_decide; simpl; swallowed.
  - destruct (parse_hash256 _) as [blockHash|]; [|swallowed].
    case_decide.
    + rewrite updatePeerCount_run.
      rewrite (getinfo_answer_indep client _ w). simpl.
      destruct (getinfo_answer client w) as [[e'|] rsp'] eqn:Hi; simpl.
      * swallowed.
      * case_bool_decide; simpl; swallowed.
    + rewrite updatePeerCount_run.
      destruct (getinfo_answer client w) as [[e'|] rsp'] eqn:Hi; simpl.
      * swallowed.
      * case_bool_decide; simpl; swallowed.
Qed.
End PollerSwallows.

Lemma poller_errors_are_swallowed_witness :
  let client := polled_daemon Threw (Returned (info_of "BUSY" 3 4)) in
  let fire := pullNodeStatusAndScheduleTheNext hex_parse_hash256 client world0 in
  ((header_answer client world0).1 = Some NETWORK_ERROR
   ∧ (getinfo_answer client world0).1 = Some NODE_BUSY)
  ∧ snapshot (node (world_of fire)) = snapshot (node world0)
  ∧ notifications (log_of fire) = []
  ∧ callbacks (log_of fire) = [].
Proof.
  split; [split; reflexivity|].
  destruct (poller_errors_are_swallowed hex_parse_hash256
              (polled_daemon Threw (Returned (info_of "BUSY" 3 4))) world0)
    as (_ & _ & Hboth & Hcb & _).
  { left. discriminate. }
  destruct Hboth as [Hs Hn]; [discriminate | discriminate |].
  split; [exact Hs|]. split; [exact Hn | exact Hcb].
Defined.

(** C7 fails as stated: the header call returns NetworkError, the get-info
    call succeeds with 7 peers against a cached count of 0, and the fire
    stores the new peer count and notifies the observers of it. *)
Lemma poller_error_fire_updates_peer_count :
  let client := polled_daemon Threw (Returned (info_of "OK" 3 4)) in
  let fire := pullNodeStatusAndScheduleTheNext hex_parse_hash256 client world0 in
  (header_answer client world0).1 = Some NETWORK_ERROR
  ∧ m_peerCount (node world0) = 0
  ∧ m_peerCount (node (world_of fire)) = 7
  ∧ notifications (log_of fire) = [EvNotify (peerCountUpdated 7)].
Proof. split_and!; by vm_compute. Qed.

(** ** Asynchronous operations *)

(** C2, as amended.  While the lifecycle state is not Initialized, each of
    relayTransaction, getRandomOutsByAmounts, getNewBlocks,
    getTransactionOutsGlobalIndices and queryBlocks invokes its callback
    with NotInitialized and does nothing else: the proxy, its queue and the
    storage of the callers are as before and no request is sent.
    getPoolSymmetricDifference does not look at the lifecycle state: in
    every state, Initialized or not, it invokes its callback with no error,
    sends no request and leaves the proxy and its queue as they were. *)
Theorem async_call_not_initialized (c : AsyncCall) (w : World) :
  (is_getPoolSymmetricDifference c = false ->
   m_initState (node w) ≠ Initialized ->
   call c w = (tt, w, [EvCallback (callback_of c) (make_error_code NOT_INITIALIZED)]))
  ∧ (is_getPoolSymmetricDifference c = true ->
     node (world_of (call c w)) = node w
     ∧ log_of (call c w) = [EvCallback (callback_of c) None]).
Proof.
  destruct w as [p m]. split.
  - intros Hc Hs. simpl in Hs.
    destruct c; try discriminate; simpl;
      unfold relayTransaction, getRandomOutsByAmounts, getNewBlocks,
        getTransactionOutsGlobalIndices, queryBlocks;
      run_monad; unfold initialized; rewrite bool_decide_eq_false_2 by done; done.
  - intros Hc. destruct c; try discriminate. simpl.
    unfold getPoolSymmetricDifference. by run_monad.
Qed.

Lemma async_call_not_initialized_witness :
  let query := call_queryBlocks [null_hash] 0 1%nat 2%nat 5%nat in
  let pool := call_getPoolSymmetricDifference [] null_hash 1%nat 2%nat 3%nat 5%nat in
  (m_initState (node world0) ≠ Initialized
   ∧ m_initState (node running_world) = Initialized)
  ∧ call query world0 = (tt, world0, [EvCallback 5%nat (Some NOT_INITIALIZED)])
  ∧ log_of (call pool world0) = [EvCallback 5%nat None]
  ∧ log_of (call pool running_world) = [EvCallback 5%nat None]
  ∧ node (world_of (call pool running_world)) = node running_world.
Proof.
  split; [split; [discriminate | reflexivity]|].
  split.
  - apply (proj1 (async_call_not_initialized
                    (call_queryBlocks [null_hash] 0 1%nat 2%nat 5%nat) world0));
      [reflexivity | discriminate].
  - split.
    + apply (proj2 (async_call_not_initialized
                      (call_getPoolSymmetricDifference [] null_hash 1%nat 2%nat 3%nat 5%nat)
                      world0)); reflexivity.
    + destruct (proj2 (async_call_not_initialized
                         (call_getPoolSymmetricDifference [] null_hash 1%nat 2%nat
                            3%nat 5%nat)
                         running_world) eq_refl) as [Hn Hl].
      split; [exact Hl | exact Hn].
Defined.

(** C2 fails as stated: in the state NotInitialized
    getPoolSymmetricDifference invokes its callback with no error. *)
Lemma getPoolSymmetricDifference_ignores_lifecycle :
  let c := call_getPoolSymmetricDifference [] null_hash 1%nat 2%nat 3%nat 5%nat in
  m_initState (node world0) = NotInitialized
  ∧ log_of (call c world0) = [EvCallback 5%nat None]
  ∧ log_of (call c world0) ≠ [EvCallback 5%nat (Some NOT_INITIALIZED)]
  ∧ mem_bool (caller (world_of (call c world0))) 1%nat = true.
Proof. split_and!; by vm_compute. Qed.

(** While the state is Initialized the five operations only enqueue. *)
Lemma async_call_initialized (c : AsyncCall) (w : World) :
  m_initState (node w) = Initialized ->
  is_getPoolSymmetricDifference c = false ->
  log_of (call c w) = []
  ∧ caller (world_of (call c w)) = caller w
  ∧ ∃ t, node (world_of (call c w)) =
           set_ioService_queue (m_ioService_queue (node w) ++ [t]) (node w)
         ∧ t ≠ Task_pullTimer asio_success.
Proof.
  intros Hs Hc. destruct w as [p m]. simpl in Hs.
  destruct c; try discriminate; simpl;
    unfold relayTransaction, getRandomOutsByAmounts, getNewBlocks,
      getTransactionOutsGlobalIndices, queryBlocks;
    run_monad; unfold initialized; rewrite bool_decide_eq_true_2 by done; simpl;
    (split_and!; [done | done | eexists; split; [reflexivity | discriminate]]).
Qed.

(** Running the dispatcher call that opens an operation. *)
Ltac run_command :=
  unfold mbind at 1; unfold M_bind at 1;
  first [rewrite binaryCommand_log | rewrite jsonCommand_log];
  destruct (answer _ _) as [[e|] rsp]; simpl.

Section OperationFacts.
Variable parse_hash256 : string -> option hash.

(** C9.  When the dispatcher call of an executed operation returns an error
    code, the storage of the callers (and the proxy) is left as it was, and
    the callback is invoked once, with that error code. *)
Theorem failed_operation_leaves_outputs (client : HttpClient) (t : Task) (w : World) :
  is_operation t = true ->
  dispatched client t w ≠ None ->
  let r := run_task parse_hash256 client t w in
  world_of r = w
  ∧ callbacks (log_of r) = [EvCallback (task_callback t) (dispatched client t w)]
  ∧ length (requests (log_of r)) = 1%nat.
Proof.
  intros Ht Hec r.
  assert (∃ shape url,
            r = (tt, w, [EvRequest shape url;
                         EvCallback (task_callback t) (dispatched client t w)]))
    as (shape & url & ->); [|done].
  subst r. destruct w as [p m].
  destruct t; try discriminate; simpl in *;
    unfold doRelayTransaction, doGetRandomOutsByAmounts, doGetNewBlocks,
      doGetTransactionOutsGlobalIndices, doQueryBlocks;
    run_command; try done; run_monad; by eexists _, _.
Qed.
End OperationFacts.

Lemma failed_operation_leaves_outputs_witness :
  let busy := {|
    blocks := [{| bce_block := "block"; bce_txs := ["tx"] |}];
    gbf_start_height := 10;
    gbf_status := "BUSY" |} in
  let client := daemon Threw Threw Threw Threw (Returned busy) Threw Threw in
  let t := Task_doGetNewBlocks [null_hash] 1%nat 2%nat 5%nat in
  dispatched client t world0 = Some NODE_BUSY
  ∧ world_of (run_task hex_parse_hash256 client t world0) = world0
  ∧ callbacks (log_of (run_task hex_parse_hash256 client t world0)) =
      [EvCallback 5%nat (Some NODE_BUSY)].
Proof.
  split; [reflexivity|].
  pose proof (failed_operation_leaves_outputs hex_parse_hash256
    (daemon Threw Threw Threw Threw
       (Returned {| blocks := [{| bce_block := "block"; bce_txs := ["tx"] |}];
                    gbf_start_height := 10; gbf_status := "BUSY" |}) Threw Threw)
    (Task_doGetNewBlocks [null_hash] 1%nat 2%nat 5%nat) world0 eq_refl) as H.
  destruct H as (Hw & Hc & _); [discriminate|].
  split; [exact Hw | exact Hc].
Defined.

Lemma doQueryBlocks_run (client : HttpClient) (knownBlockIds : list hash)
    (timestamp : Z) (newBlocks startHeight : Ref) (callback : Callback)
    (w : World) (rsp : QUERY_BLOCKS_response) :
  answer (binaryCommand (http_queryblocks client) "/queryblocks.bin"
            {| qb_block_ids := knownBlockIds; qb_timestamp := timestamp |}
            AUTO_VAL_INIT) w = (None, rsp) ->
  ∃ m',
    doQueryBlocks client knownBlockIds timestamp newBlocks startHeight callback w =
      (tt, {| node := node w; caller := m' |},
       [EvRequest BinaryCall "/queryblocks.bin"; EvCallback callback None])
    ∧ mem_entries m' newBlocks =
        mem_entries (caller w) newBlocks ++ map entry_of (items rsp)
    ∧ mem_uint64 m' startHeight = qb_start_height rsp.
Proof.
  intros Ha. unfold doQueryBlocks.
  unfold mbind at 1. unfold M_bind at 1.
  rewrite binaryCommand_log, Ha. simpl.
  unfold mbind at 1. unfold M_bind at 1.
  unfold mbind at 1. unfold M_bind at 1.
  pose proof (for_each_push_back newBlocks entry_of (items rsp) w) as H.
  simpl in H. unfold world_of, log_of in H.
  change (fun item : block_full_info => push_back_entry newBlocks (entry_of item))
    with (fun item : block_full_info => push_back_entry newBlocks
            {| blockHash := block_id item; block := bfi_block item; txs := bfi_txs item |})
    in H.
  destruct (for_each (items rsp) _ w) as [[[] w1] l1]. simpl in H.
  destruct H as (Hn & -> & He & _ & _ & _ & _ & _ & _).
  run_monad. rewrite Hn. eexists. split; [reflexivity|]. simpl.
  split; [done|]. by rewrite fn_lookup_insert.
Qed.

(** C5.  When the query-blocks call succeeds with a response of N items,
    the list of the caller receives N entries, appended in the order of the
    items to what it held, each with the block id, the block body and the
    transaction list of its item, and the start height of the caller is set
    to the start height of the response; the callback is invoked once, with
    no error. *)
Theorem doQueryBlocks_success (client : HttpClient) (knownBlockIds : list hash)
    (timestamp : Z) (newBlocks startHeight : Ref) (callback : Callback)
    (w : World) (rsp : QUERY_BLOCKS_response) :
  answer (binaryCommand (http_queryblocks client) "/queryblocks.bin"
            {| qb_block_ids := knownBlockIds; qb_timestamp := timestamp |}
            AUTO_VAL_INIT) w = (None, rsp) ->
  let r := doQueryBlocks client knownBlockIds timestamp newBlocks startHeight callback w in
  let before := mem_entries (caller w) newBlocks in
  let after := mem_entries (caller (world_of r)) newBlocks in
  let received := drop (length before) after in
  after = before ++ received
  ∧ length received = length (items rsp)
  ∧ (∀ i item, items rsp !! i = Some item ->
       received !! i = Some {| blockHash := block_id item;
                               block := bfi_block item;
                               txs := bfi_txs item |})
  ∧ mem_uint64 (caller (world_of r)) startHeight = qb_start_height rsp
  ∧ callbacks (log_of r) = [EvCallback callback None].
Proof.
  intros Ha r before after received.
  destruct (doQueryBlocks_run client knownBlockIds timestamp newBlocks startHeight
              callback w rsp Ha) as (m' & Hr & He & Hh).
  fold r in Hr.
  assert (after = before ++ map entry_of (items rsp)) as Hafter.
  { subst after before. by rewrite Hr. }
  assert (received = map entry_of (items rsp)) as Hrec.
  { subst received. rewrite Hafter. by rewrite drop_app_length. }
  rewrite Hr. split_and!; try done.
  - by rewrite Hafter, Hrec.
  - by rewrite Hrec, length_map.
  - intros i item Hi. rewrite Hrec, list_lookup_fmap, Hi. done.
Qed.

Lemma doQueryBlocks_success_witness :
  let item1 := {| block_id := null_hash; bfi_block := "b1"; bfi_txs := ["t1"; "t2"] |} in
  let item2 := {| block_id := replicate 32 x11; bfi_block := "b2"; bfi_txs := [] |} in
  let rsp := {| qb_status := "OK"; qb_start_height := 42; items := [item1; item2] |} in
  let client := daemon Threw Threw Threw Threw Threw Threw (Returned rsp) in
  let r := doQueryBlocks client [null_hash] 0 1%nat 2%nat 5%nat world0 in
  answer (binaryCommand (http_queryblocks client) "/queryblocks.bin"
            {| qb_block_ids := [null_hash]; qb_timestamp := 0 |} AUTO_VAL_INIT) world0
    = (None, rsp)
  ∧ mem_entries (caller (world_of r)) 1%nat =
      [{| blockHash := null_hash; block := "b1"; txs := ["t1"; "t2"] |};
       {| blockHash := replicate 32 x11; block := "b2"; txs := [] |}]
  ∧ mem_uint64 (caller (world_of r)) 2%nat = 42.
Proof.
  split; [reflexivity|].
  pose proof (doQueryBlocks_success
    (daemon Threw Threw Threw Threw Threw Threw
       (Returned {| qb_status := "OK"; qb_start_height := 42;
                    items := [{| block_id := null_hash; bfi_block := "b1";
                                 bfi_txs := ["t1"; "t2"] |};
                              {| block_id := replicate 32 x11; bfi_block := "b2";
                                 bfi_txs := [] |}] |}))
    [null_hash] 0 1%nat 2%nat 5%nat world0 _ eq_refl) as H.
  destruct H as (_ & _ & _ & Hh & _).
  split; [reflexivity | exact Hh].
Defined.

(** ** Frames: what an action leaves alone *)

Section Frames.
Variable parse_hash256 : string -> option hash.

(** A queued operation does not touch the proxy object, and what it logs
    is a request of its own and its callback. *)
Lemma run_operation_frame (client : HttpClient) (t : Task) (w : World) :
  is_operation t = true ->
  ∃ m' l,
    run_task parse_hash256 client t w = (tt, {| node := node w; caller := m' |}, l)
    ∧ polls l = [] ∧ notifications l = [].
Proof.
  intros Ht. destruct w as [p m]. destruct t; try discriminate; simpl.
  - unfold doRelayTransaction. run_command; run_monad; by eexists _, _.
  - unfold doGetRandomOutsByAmounts. run_command; run_monad; by eexists _, _.
  - unfold doGetNewBlocks. run_command; run_monad; by eexists _, _.
  - unfold doGetTransactionOutsGlobalIndices. run_command; run_monad; by eexists _, _.
  - destruct (answer (binaryCommand (http_queryblocks client) "/queryblocks.bin"
                        {| qb_block_ids := knownBlockIds; qb_timestamp := timestamp |}
                        AUTO_VAL_INIT) {| node := p; caller := m |}) as [[e|] rsp] eqn:Ha.
    + unfold doQueryBlocks. unfold mbind at 1. unfold M_bind at 1.
      rewrite binaryCommand_log, Ha. run_monad. by eexists _, _.
    + destruct (doQueryBlocks_run client knownBlockIds timestamp newBlocks startHeight
                  callback _ rsp Ha) as (m' & -> & _).
      by eexists _, _.
Qed.

(** A fire of the poller keeps the lifecycle state, the thread object and
    the stop flag, and leaves a wait pending on the timer. *)
Lemma fire_frame (client : HttpClient) (w : World) :
  let p' := node (world_of (pullNodeStatusAndScheduleTheNext parse_hash256 client w)) in
  lifecycle p' = lifecycle (node w)
  ∧ m_ioService_stopped p' = m_ioService_stopped (node w)
  ∧ m_pullTimer p' = true.
Proof.
  simpl. rewrite pullNodeStatusAndScheduleTheNext_run. unfold world_of at 1. simpl.
  assert (lifecycle (node (world_of (updateNodeStatus parse_hash256 client w)))
            = lifecycle (node w)
          ∧ m_ioService_stopped (node (world_of (updateNodeStatus parse_hash256 client w)))
            = m_ioService_stopped (node w)) as [Hl Hs].
  { rewrite updateNodeStatus_run. simpl.
    repeat first [case_match | case_decide];
      rewrite ?updatePeerCount_run; repeat case_match; done. }
  destruct (m_pullTimer _); simpl; split_and!; try done.
Qed.
End Frames.

Section LoopFacts.
Variable parse_hash256 : string -> option hash.

Lemma complete_wait_run (ec : asio_error) (w : World) :
  complete_wait ec w =
    (tt,
     {| node :=
          if m_pullTimer (node w) then
            set_ioService_queue (m_ioService_queue (node w) ++ [Task_pullTimer ec])
              (set_pullTimer false (node w))
          else node w;
        caller := caller w |},
     []).
Proof. destruct w as [p m]. unfold complete_wait. run_monad. by destruct (m_pullTimer p). Qed.

Lemma call_run (c : AsyncCall) (w : World) :
  ∃ m' l,
    (call c w = (tt, {| node := node w; caller := m' |}, l)
     ∨ ∃ t, is_operation t = true
            ∧ call c w =
                (tt, {| node := set_ioService_queue (m_ioService_queue (node w) ++ [t])
                                  (node w);
                        caller := m' |}, l))
    ∧ polls l = [] ∧ notifications l = [].
Proof.
  destruct w as [p m].
  destruct c; simpl;
    unfold relayTransaction, getRandomOutsByAmounts, getNewBlocks,
      getTransactionOutsGlobalIndices, queryBlocks, getPoolSymmetricDifference;
    run_monad; try (by eexists _, _; split; [left; reflexivity | done]);
    destruct (initialized (m_initState p)); simpl;
    eexists _, _;
    (split; [first [left; reflexivity
                   | right; eexists; split; [|reflexivity]; done] | done]).
Qed.

Lemma run_one_run (client : HttpClient) (w : World) :
  run_one parse_hash256 client w =
    if m_ioService_stopped (node w) then (tt, w, [])
    else match m_ioService_queue (node w) with
         | [] => (tt, w, [])
         | t :: q =>
             run_task parse_hash256 client t
               {| node := set_ioService_queue q (node w); caller := caller w |}
         end.
Proof.
  destruct w as [p m]. unfold run_one. run_monad.
  destruct (m_ioService_stopped p); [done|].
  destruct (m_ioService_queue p) as [|t q]; [done|].
  by destruct (run_task _ _ _ _) as [[[] ?] ?].
Qed.


Lemma shutdown_run (w : World) :
  shutdown w =
    if decide (m_initState (node w) = Initialized) then
      (true, {| node := after_shutdown (node w); caller := caller w |}, [])
    else (false, w, []).
Proof.
  destruct w as [[st th stopped q timer pc nh nwh h ts] m].
  unfold shutdown, pullTimer_cancel, ioService_stop, complete_wait, after_shutdown.
  run_monad.
  destruct st; simpl; try done.
  destruct timer; simpl; destruct th; done.
Qed.

Lemma init_run (callback : Callback) (w : World) :
  init callback w =
    if decide (m_initState (node w) = NotInitialized ∨ m_initState (node w) = ShutDown) then
      (tt, {| node := after_init callback (node w); caller := caller w |}, [])
    else (tt, w, [EvCallback callback (make_error_code ALREADY_INITIALIZED)]).
Proof.
  destruct w as [[st th stopped q timer pc nh nwh h ts] m].
  unfold init, resetInternalState, after_init. run_monad.
  destruct st; by simpl.
Qed.


End LoopFacts.

(** ** Lifecycle *)




Section Lifecycle.
Variable parse_hash256 : string -> option hash.


(** C10.  In every reachable state getLocalBlockCount returns what
    getLastLocalBlockHeight returns, and getKnownBlockCount returns what
    getLastKnownBlockHeight returns. *)
Theorem block_count_is_block_height (w : World) :
  reachable parse_hash256 w ->
  getLocalBlockCount (node w) = getLastLocalBlockHeight (node w)
  ∧ getKnownBlockCount (node w) = getLastKnownBlockHeight (node w).
Proof. intros _. split; reflexivity. Qed.
End Lifecycle.


Lemma synced_world_reachable : reachable hex_parse_hash256 synced_world.
Proof.
  unfold synced_world. apply reach_workerThread.
  - apply reach_init. apply reach_new.
  - reflexivity.
Defined.

Lemma block_count_is_block_height_witness :
  reachable hex_parse_hash256 synced_world
  ∧ getLocalBlockCount (node synced_world) = 7
  ∧ getLastLocalBlockHeight (node synced_world) = 7
  ∧ getLocalBlockCount (node synced_world) = getLastLocalBlockHeight (node synced_world)
  ∧ getKnownBlockCount (node synced_world) = getLastKnownBlockHeight (node synced_world).
Proof.
  split; [exact synced_world_reachable|].
  split; [reflexivity|]. split; [reflexivity|].
  exact (block_count_is_block_height hex_parse_hash256 synced_world
           synced_world_reachable).
Defined.

(** ** The poller after cancellation *)

Section Cancellation.
Variable parse_hash256 : string -> option hash.

(** The handler of a cancelled wait does nothing at all. *)
Lemma aborted_handler_is_inert (client : HttpClient) (w : World) :
  pullTimer_handler parse_hash256 client operation_aborted w = (tt, w, []).
Proof. unfold pullTimer_handler. by rewrite decide_False by (intros H; by apply H). Qed.








End Cancellation.



(** Where the condition on the queue matters: a wait that had already
    completed with success when the timer was cancelled has its handler run
    with success, and that handler fires the poller once more if the worker
    gets to it before the loop is stopped. *)
Lemma expired_wait_fires_before_stop :
  let expired := world_of (pullTimer_expire running_world) in
  let cancelled := world_of (pullTimer_cancel expired) in
  m_ioService_queue (node cancelled) = [Task_pullTimer asio_success]
  ∧ polls (log_of (run_one hex_parse_hash256 synced_daemon cancelled)) =
      [EvRequest JsonRpcCall "getlastblockheader"]
  ∧ polls (log_of (run_one hex_parse_hash256 synced_daemon
                     (world_of (ioService_stop cancelled)))) = [].
Proof. split_and!; by vm_compute. Qed.

(** * Further properties of the proxy *)

(** ** What an error code tells *)

(** Closing an equivalence between an error code and the way a call ended,
    once both sides are ground or among the hypotheses. *)
Ltac cause_cases :=
  first
    [ done
    | by intros ? [= <-]
    | split; intros Hcause;
      first [ done | discriminate
            | by destruct Hcause as (? & ? & _)
            | match goal with H1 : _ <-> False |- _ => by apply H1 in Hcause end ] ].

Section DispatcherCauses.
Context {Request Response : Type} `{!HasStatus Response}.

(** X1.  The error code of a dispatcher call tells what happened:
    NetworkError exactly when a statement threw, no error exactly when the
    call returned a response (for JSON-RPC: an extracted result) whose
    status is "OK", NodeBusy exactly when that status is "BUSY".  The
    response handed back on a return is the one the transport filled, and
    a dispatcher call never gives NotInitialized or AlreadyInitialized. *)
Theorem dispatcher_error_identifies_cause
    (i : Invoke Request Response) (c : JsonRpcClient Request Response)
    (url method : string) (req : Request) (res : Response) (w : World) :
  let b := answer (binaryCommand i url req res) w in
  let r := answer (jsonRpcCommand c method req res) w in
  (b.1 = Some NETWORK_ERROR <-> i url req res = Threw)
  ∧ (b.1 = None <-> ∃ x, i url req res = Returned x ∧ status x = "OK")
  ∧ (b.1 = Some NODE_BUSY <-> ∃ x, i url req res = Returned x ∧ status x = "BUSY")
  ∧ (∀ x, i url req res = Returned x -> b.2 = x)
  ∧ (r.1 = Some NETWORK_ERROR <-> rpc_exchange c method req res = Threw)
  ∧ (r.1 = None <->
     ∃ x, rpc_exchange c method req res = Returned (Some x) ∧ status x = "OK")
  ∧ (r.1 = Some NODE_BUSY <->
     ∃ x, rpc_exchange c method req res = Returned (Some x) ∧ status x = "BUSY")
  ∧ (∀ x, rpc_exchange c method req res = Returned (Some x) -> r.2 = x)
  ∧ b.1 ≠ Some NOT_INITIALIZED ∧ b.1 ≠ Some ALREADY_INITIALIZED
  ∧ r.1 ≠ Some NOT_INITIALIZED ∧ r.1 ≠ Some ALREADY_INITIALIZED.
Proof.
  assert (Hi : ∀ s : string,
    interpretResponseStatus s ≠ Some NETWORK_ERROR
    ∧ (interpretResponseStatus s = None <-> s = "OK")
    ∧ (interpretResponseStatus s = Some NODE_BUSY <-> s = "BUSY")
    ∧ interpretResponseStatus s ≠ Some NOT_INITIALIZED
    ∧ interpretResponseStatus s ≠ Some ALREADY_INITIALIZED).
  { intros s. unfold interpretResponseStatus, CORE_RPC_STATUS_BUSY, CORE_RPC_STATUS_OK,
      make_error_code.
    repeat case_decide; subst; split_and!; try split; try done; try congruence. }
  assert (Hret : ∀ (x : Response) (ec : error_code),
    ec = interpretResponseStatus (status x) ->
    (ec = Some NETWORK_ERROR <-> False)
    ∧ (ec = None <-> ∃ y, Returned x = Returned y ∧ status y = "OK")
    ∧ (ec = Some NODE_BUSY <-> ∃ y, Returned x = Returned y ∧ status y = "BUSY")
    ∧ ec ≠ Some NOT_INITIALIZED ∧ ec ≠ Some ALREADY_INITIALIZED).
  { intros x ec ->. destruct (Hi (status x)) as (H1 & H2 & H3 & H4 & H5).
    split_and!; try done.
    - split; [intros H; exists x; by rewrite <- H2 | intros (y & [= <-] & ?); by apply H2].
    - split; [intros H; exists x; by rewrite <- H3 | intros (y & [= <-] & ?); by apply H3]. }
  assert (Hopt : ∀ (x : Response) (ec : error_code),
    ec = interpretResponseStatus (status x) ->
    (ec = None <-> ∃ y, Returned (Some x) = Returned (Some y) ∧ status y = "OK")
    ∧ (ec = Some NODE_BUSY <->
       ∃ y, Returned (Some x) = Returned (Some y) ∧ status y = "BUSY")).
  { intros x ec ->. destruct (Hi (status x)) as (H1 & H2 & H3 & H4 & H5).
    split.
    - split; [intros H; exists x; by rewrite <- H2 | intros (y & [= <-] & ?); by apply H2].
    - split; [intros H; exists x; by rewrite <- H3 | intros (y & [= <-] & ?); by apply H3]. }
  simpl. unfold binaryCommand, jsonRpcCommand, rpc_exchange, make_error_code. run_monad.
  split_and!.
  1-4, 9-10:
    destruct (i url req res) as [|x]; simpl;
    [ | destruct (Hret x _ eq_refl) as (H1 & H2 & H3 & H4 & H5) ];
    cause_cases.
  all: destruct (rpc_request c method req) as [|httpRes]; simpl; [cause_cases|];
    case_decide; simpl; [|cause_cases];
    destruct (rpc_parse c _); simpl; [cause_cases|];
    destruct (rpc_getResult c _ res) as [|[[] x]]; simpl; [cause_cases | | cause_cases];
    destruct (Hret x _ eq_refl) as (H1 & _ & _ & H4 & H5);
    destruct (Hopt x _ eq_refl) as (H2 & H3);
    cause_cases.
Qed.
End DispatcherCauses.

(** ** One fire of the poller, in closed form *)

Section FireFacts.
Variable parse_hash256 : string -> option hash.

Lemma fire_run (client : HttpClient) (w : World) :
  let fire := pullNodeStatusAndScheduleTheNext parse_hash256 client w in
  let p := node w in
  let p' := node (world_of fire) in
  (m_lastKnowHash p', m_nodeHeight p', m_networkHeight p', m_lastLocalBlockTimestamp p') =
    match new_block parse_hash256 client w with
    | Some (blockHash, header) =>
        (blockHash, bh_height header, bh_height header, bh_timestamp header)
    | None =>
        (m_lastKnowHash p, m_nodeHeight p, m_networkHeight p, m_lastLocalBlockTimestamp p)
    end
  ∧ m_peerCount p' =
    match new_peer_count parse_hash256 client w with
    | Some n => n
    | None => m_peerCount p
    end
  ∧ log_of fire =
    [EvRequest JsonRpcCall "getlastblockheader"]
    ++ match new_block parse_hash256 client w with
       | Some (_, header) =>
           [EvNotify (lastKnownBlockHeightUpdated (bh_height header));
            EvNotify (localBlockchainUpdated (bh_height header))]
       | None => []
       end
    ++ (if reaches_getinfo parse_hash256 client w
        then [EvRequest JsonCall "/getinfo"] else [])
    ++ match new_peer_count parse_hash256 client w with
       | Some n => [EvNotify (peerCountUpdated n)]
       | None => []
       end
  ∧ caller (world_of fire) = caller w.
Proof.
  simpl.
  destruct (fire_is_updateNodeStatus parse_hash256 client w) as (-> & Hs & ->).
  unfold snapshot in Hs. injection Hs as -> -> -> -> ->.
  rewrite updateNodeStatus_run.
  unfold new_block, new_peer_count, reaches_getinfo. simpl.
  destruct (header_answer client w) as [[e|] rsp] eqn:Hh; simpl.
  - rewrite updatePeerCount_run.
    destruct (getinfo_answer client w) as [[e'|] rsp'] eqn:Hi; simpl; [done|].
    by case_bool_decide.
  - destruct (parse_hash256 _) as [blockHash|]; [|done].
    case_decide.
    + rewrite updatePeerCount_run.
      rewrite (getinfo_answer_indep client _ w). simpl.
      destruct (getinfo_answer client w) as [[e'|] rsp'] eqn:Hi; simpl; [done|].
      by case_bool_decide.
    + rewrite updatePeerCount_run.
      destruct (getinfo_answer client w) as [[e'|] rsp'] eqn:Hi; simpl; [done|].
      by case_bool_decide.
Qed.
End FireFacts.

(** ** The poller and the status snapshot *)

Section SnapshotFacts.
Variable parse_hash256 : string -> option hash.

(** X2.  After a fire whose header call succeeded with a hash that parses,
    that hash is the last known hash.  When it differs from the one known
    before, the node height, the network height and the last local block
    timestamp are those of the header; when it is the same they stay as
    they were, whatever height and timestamp the header carries.  The peer
    count is the total of the get-info response when that call succeeded,
    and stays as it was when the call returned an error. *)
Theorem fire_takes_over_last_block (client : HttpClient) (w : World)
    (rsp : GET_LAST_BLOCK_HEADER_response) (blockHash : hash) :
  header_answer client w = (None, rsp) ->
  parse_hash256 (bh_hash (block_header rsp)) = Some blockHash ->
  let p := node w in
  let p' := node (world_of (pullNodeStatusAndScheduleTheNext parse_hash256 client w)) in
  m_lastKnowHash p' = blockHash
  ∧ (blockHash ≠ m_lastKnowHash p ->
     getLastLocalBlockHeight p' = bh_height (block_header rsp)
     ∧ getLastKnownBlockHeight p' = bh_height (block_header rsp)
     ∧ getLastLocalBlockTimestamp p' = bh_timestamp (block_header rsp))
  ∧ (blockHash = m_lastKnowHash p ->
     getLastLocalBlockHeight p' = getLastLocalBlockHeight p
     ∧ getLastKnownBlockHeight p' = getLastKnownBlockHeight p
     ∧ getLastLocalBlockTimestamp p' = getLastLocalBlockTimestamp p)
  ∧ ((getinfo_answer client w).1 = None ->
     getPeerCount p' = total_peers (getinfo_answer client w).2)
  ∧ ((getinfo_answer client w).1 ≠ None -> getPeerCount p' = getPeerCount p).
Proof.
  intros Hh Hp. simpl.
  destruct (fire_run parse_hash256 client w) as (Hblock & Hpeer & _ & _).
  unfold getLastLocalBlockHeight, getLastKnownBlockHeight, getLastLocalBlockTimestamp,
    getPeerCount.
  rewrite Hpeer. clear Hpeer.
  unfold new_block, new_peer_count, reaches_getinfo in *.
  rewrite Hh in *. simpl in *. rewrite Hp in *.
  split_and!.
  - case_decide as Hne; injection Hblock as -> _ _ _; [done|].
    by destruct (decide (blockHash = m_lastKnowHash (node w))).
  - intros Hne. rewrite decide_True in Hblock by done. by injection Hblock as _ -> -> ->.
  - intros Heq. rewrite decide_False in Hblock by (intros H; by apply H).
    by injection Hblock as _ -> -> ->.
  - intros ->. simpl. by case_bool_decide.
  - intros Hi. by destruct (getinfo_answer client w).1.
Qed.

(** X3.  A second fire against a daemon that answers as it did to the
    first changes nothing and notifies nobody: the snapshot after it is
    the snapshot before it, and it sends the same requests again. *)
Theorem second_fire_is_silent (client : HttpClient) (w : World) :
  let first := pullNodeStatusAndScheduleTheNext parse_hash256 client w in
  let second := pullNodeStatusAndScheduleTheNext parse_hash256 client (world_of first) in
  notifications (log_of second) = []
  ∧ snapshot (node (world_of second)) = snapshot (node (world_of first))
  ∧ requests (log_of second) = requests (log_of first).
Proof.
  simpl.
  destruct (fire_run parse_hash256 client w) as (Hb1 & Hp1 & Hl1 & _).
  destruct (fire_run parse_hash256 client
              (world_of (pullNodeStatusAndScheduleTheNext parse_hash256 client w)))
    as (Hb2 & Hp2 & Hl2 & _).
  set (w1 := world_of (pullNodeStatusAndScheduleTheNext parse_hash256 client w)) in *.
  assert (Hr : reaches_getinfo parse_hash256 client w1
               = reaches_getinfo parse_hash256 client w).
  { unfold reaches_getinfo. by rewrite (header_answer_indep client w1 w). }
  assert (Hnb : new_block parse_hash256 client w1 = None).
  { revert Hb1. unfold new_block. rewrite (header_answer_indep client w1 w).
    destruct (no_error _); [|done].
    destruct (parse_hash256 _) as [blockHash|]; [|done].
    case_decide as Hne.
    - intros [= -> _ _ _]. by case_decide.
    - intros [= -> _ _ _]. by case_decide. }
  assert (Hnp : new_peer_count parse_hash256 client w1 = None).
  { revert Hp1. unfold new_peer_count. rewrite Hr, (getinfo_answer_indep client w1 w).
    destruct (reaches_getinfo _ _ _ && no_error _); simpl; [|done].
    case_bool_decide as Hne; simpl.
    - intros ->. by case_bool_decide.
    - intros ->. by case_bool_decide. }
  rewrite Hnb, Hnp in *. rewrite Hl1, Hl2, Hr.
  split_and!.
  - by destruct (reaches_getinfo _ _ _).
  - unfold snapshot. injection Hb2 as -> -> -> ->. by rewrite Hp2.
  - destruct (new_block _ _ w) as [[? ?]|], (new_peer_count _ _ w),
      (reaches_getinfo _ _ w); done.
Qed.
End SnapshotFacts.

Lemma fire_takes_over_last_block_witness :
  let same_hash := polled_daemon (Returned (header_of "OK" hash_string_11 100 200))
                                 (Returned (info_of "BUSY" 50 50)) in
  let p' := node (world_of (pullNodeStatusAndScheduleTheNext hex_parse_hash256
                              same_hash synced_world)) in
  (header_answer same_hash synced_world = (None, header_of "OK" hash_string_11 100 200)
   ∧ hex_parse_hash256 hash_string_11 = Some (replicate 32 x11)
   ∧ m_lastKnowHash (node synced_world) = replicate 32 x11
   ∧ getLastLocalBlockHeight (node synced_world) = 7)
  ∧ m_lastKnowHash p' = replicate 32 x11
  ∧ getLastLocalBlockHeight p' = getLastLocalBlockHeight (node synced_world)
  ∧ getPeerCount p' = getPeerCount (node synced_world).
Proof.
  split; [by vm_compute|].
  destruct (fire_takes_over_last_block hex_parse_hash256
              (polled_daemon (Returned (header_of "OK" hash_string_11 100 200))
                             (Returned (info_of "BUSY" 50 50)))
              synced_world (header_of "OK" hash_string_11 100 200) (replicate 32 x11)
              eq_refl eq_refl) as (Hhash & _ & Hsame & _ & Hpeer).
  split; [exact Hhash|].
  split; [apply Hsame; reflexivity | apply Hpeer; discriminate].
Defined.

Section SnapshotInvariant.
Variable parse_hash256 : string -> option hash.

Lemma snapshot_ok_eq (p p' : NodeRpcProxy) :
  snapshot p' = snapshot p -> snapshot_ok p -> snapshot_ok p'.
Proof. unfold snapshot, snapshot_ok. by intros [= -> -> -> _ _]. Qed.

Lemma uint64_add_range (a b : Z) : 0 <= uint64_add a b < 2 ^ 64.
Proof. unfold uint64_add. apply Z.mod_pos_bound. lia. Qed.

Lemma fire_snapshot_ok (client : HttpClient) (w : World) :
  snapshot_ok (node w) ->
  snapshot_ok (node (world_of (pullNodeStatusAndScheduleTheNext parse_hash256 client w))).
Proof.
  intros [Hm Hp].
  destruct (fire_run parse_hash256 client w) as (Hb & Hc & _ & _).
  unfold snapshot_ok. rewrite Hc. split.
  - destruct (new_block _ _ _) as [[? ?]|]; injection Hb as _ -> -> _; done.
  - unfold new_peer_count.
    destruct (_ && _); [apply uint64_add_range | done].
Qed.

(** What an action of the loop does to the snapshot: nothing, or what a
    fire does to it. *)
Lemma perform_snapshot (a : LoopAction) (w : World) :
  snapshot (node (world_of (perform parse_hash256 a w))) = snapshot (node w)
  ∨ ∃ client w0,
      snapshot (node w0) = snapshot (node w)
      ∧ snapshot (node (world_of (perform parse_hash256 a w))) =
        snapshot (node (world_of
          (pullNodeStatusAndScheduleTheNext parse_hash256 client w0))).
Proof.
  destruct a; simpl.
  - left. unfold pullTimer_expire. rewrite complete_wait_run. unfold world_of. simpl.
    by destruct (m_pullTimer _).
  - rewrite run_one_run.
    destruct (m_ioService_stopped _); [by left|].
    destruct (m_ioService_queue _) as [|t q]; [by left|].
    destruct (is_operation t) eqn:Ht.
    + left.
      destruct (run_operation_frame parse_hash256 client t
                  {| node := set_ioService_queue q (node w); caller := caller w |} Ht)
        as (m' & l & -> & _). done.
    + destruct t as [[]| | | | |]; try discriminate; unfold run_task.
      * right. unfold pullTimer_handler.
        exists client, {| node := set_ioService_queue q (node w); caller := caller w |}.
        split; [done|]. by case_decide.
      * left. by rewrite aborted_handler_is_inert.
  - left. destruct (call_run c w) as (m' & l & [-> | (t & _ & ->)] & _); done.
  - left. unfold pullTimer_cancel. rewrite complete_wait_run. unfold world_of. simpl.
    by destruct (m_pullTimer _).
  - left. by destruct w.
Qed.

Lemma reachable_snapshot_ok (w : World) :
  reachable parse_hash256 w -> snapshot_ok (node w).
Proof.
  induction 1 as [m | callback w _ IH | w _ IH
                  | client callback [p m] _ IH Hsp | w l w' _ IH Hstep].
  - unfold snapshot_ok. simpl. lia.
  - rewrite init_run. case_decide; [|done].
    unfold snapshot_ok, world_of. simpl. lia.
  - rewrite shutdown_run. case_decide; [|done].
    revert IH. apply snapshot_ok_eq. unfold world_of, after_shutdown.
    destruct w as [[st th stopped q timer pc nh nwh h ts] m]. simpl.
    destruct timer; simpl; destruct th; done.
  - unfold workerThread. run_monad.
    destruct (endInit (m_initState p)) as [[] s] eqn:He; simpl; [|done].
    pose proof (fire_snapshot_ok client
                  {| node := set_initState s p; caller := m |} IH) as Hf.
    unfold world_of in Hf.
    by destruct (pullNodeStatusAndScheduleTheNext _ _ _) as [[[] [p' m']] l'].
  - inversion Hstep; subst.
    destruct (perform_snapshot a w) as [Hs | (client & w0 & Hs0 & Hs)].
    + by apply (snapshot_ok_eq (node w)).
    + eapply snapshot_ok_eq; [exact Hs|].
      apply fire_snapshot_ok. by apply (snapshot_ok_eq (node w)).
Qed.

(** X4.  Between two whole actions (after the constructor and after every
    [init], [shutdown], start of the worker and action of the loop, each
    run to its end) the network height mirrors the node height:
    getLastKnownBlockHeight, getKnownBlockCount, getLastLocalBlockHeight
    and getLocalBlockCount all return the same number.  The fire writes the
    two fields one after the other; what a reader on another thread sees
    between the two writes is outside this statement. *)
Theorem known_height_is_local_height (w : World) :
  reachable parse_hash256 w ->
  getLastKnownBlockHeight (node w) = getLastLocalBlockHeight (node w)
  ∧ getKnownBlockCount (node w) = getLocalBlockCount (node w).
Proof.
  intros Hr. destruct (reachable_snapshot_ok w Hr) as [Hm _].
  unfold getLastKnownBlockHeight, getKnownBlockCount, getLastLocalBlockHeight,
    getLocalBlockCount. by rewrite Hm.
Qed.

(** X5.  The peer count wraps around.  In a fire that gets as far as the
    get-info call, when that call succeeds with two connection counters in
    the range of 64 bits, the peer count stored is their sum when the sum
    is below 2^64 and the sum minus 2^64 otherwise, and the observers are
    notified of that number exactly when it differs from the cached peer
    count: a sum that exceeds the cached count by 2^64 goes unnoticed. *)
Theorem peer_count_wraps_around (client : HttpClient) (w : World)
    (rsp : GET_INFO_response) :
  (header_answer client w).1 ≠ None
  ∨ is_Some (parse_hash256 (bh_hash (block_header (header_answer client w).2))) ->
  getinfo_answer client w = (None, rsp) ->
  0 <= incoming_connections_count rsp < 2 ^ 64 ->
  0 <= outgoing_connections_count rsp < 2 ^ 64 ->
  let fire := pullNodeStatusAndScheduleTheNext parse_hash256 client w in
  let sum := incoming_connections_count rsp + outgoing_connections_count rsp in
  let stored := if decide (sum < 2 ^ 64) then sum else sum - 2 ^ 64 in
  getPeerCount (node (world_of fire)) = stored
  ∧ peer_notifications (log_of fire) =
      (if decide (stored = m_peerCount (node w)) then []
       else [EvNotify (peerCountUpdated stored)]).
Proof.
  intros Hreach Hinfo Hin Hout. simpl.
  destruct (fire_run parse_hash256 client w) as (_ & Hpeer & Hlog & _).
  unfold getPeerCount. rewrite Hpeer, Hlog. clear Hpeer Hlog.
  assert (reaches_getinfo parse_hash256 client w = true) as Hr.
  { unfold reaches_getinfo.
    destruct (header_answer client w).1 as [e|]; simpl; [done|].
    destruct Hreach as [?|[blockHash ->]]; done. }
  assert (total_peers rsp =
          if decide (incoming_connections_count rsp + outgoing_connections_count rsp
                     < 2 ^ 64)
          then incoming_connections_count rsp + outgoing_connections_count rsp
          else incoming_connections_count rsp + outgoing_connections_count rsp - 2 ^ 64)
    as Htotal.
  { unfold total_peers, uint64_add. case_decide.
    - apply Z.mod_small. lia.
    - symmetry. apply (Z.mod_unique _ _ 1); lia. }
  unfold new_peer_count. rewrite Hr, Hinfo. simpl. rewrite <- Htotal.
  case_bool_decide as Hne; simpl.
  - rewrite decide_False by done. split; [done|].
    destruct (new_block _ _ _) as [[? ?]|]; done.
  - rewrite decide_True by done. split; [done|].
    destruct (new_block _ _ _) as [[? ?]|]; done.
Qed.
End SnapshotInvariant.

Lemma known_height_is_local_height_witness :
  reachable hex_parse_hash256 synced_world
  ∧ getLastLocalBlockHeight (node synced_world) = 7
  ∧ getLastKnownBlockHeight (node synced_world) = getLastLocalBlockHeight (node synced_world)
  ∧ getKnownBlockCount (node synced_world) = getLocalBlockCount (node synced_world).
Proof.
  split; [exact synced_world_reachable|]. split; [reflexivity|].
  exact (known_height_is_local_height hex_parse_hash256 synced_world
           synced_world_reachable).
Defined.

Lemma peer_count_wraps_around_witness :
  let fire := pullNodeStatusAndScheduleTheNext hex_parse_hash256 crowded_daemon world0 in
  let again := pullNodeStatusAndScheduleTheNext hex_parse_hash256 crowded_daemon
                 crowded_world in
  (getinfo_answer crowded_daemon world0 = (None, info_of "OK" (2 ^ 64 - 1) 8)
   ∧ m_peerCount (node world0) = 0
   ∧ m_peerCount (node crowded_world) = 7)
  ∧ (getPeerCount (node (world_of fire)) = 7
     ∧ peer_notifications (log_of fire) = [EvNotify (peerCountUpdated 7)])
  ∧ (getPeerCount (node (world_of again)) = 7
     ∧ peer_notifications (log_of again) = []).
Proof.
  split; [by vm_compute|].
  split.
  - apply (peer_count_wraps_around hex_parse_hash256 crowded_daemon world0
             (info_of "OK" (2 ^ 64 - 1) 8)).
    + right. by eexists.
    + reflexivity.
    + simpl. lia.
    + simpl. lia.
  - apply (peer_count_wraps_around hex_parse_hash256 crowded_daemon crowded_world
             (info_of "OK" (2 ^ 64 - 1) 8)).
    + right. by eexists.
    + reflexivity.
    + simpl. lia.
    + simpl. lia.
Defined.

(** ** Starting the proxy *)

(** X6.  An [init] in the state NotInitialized or ShutDown invokes no
    callback itself and hands the callback to a new worker thread.  It
    resets the peer count and both heights to 0 and the last known hash to
    the null hash and clears the stop flag of the loop, but it keeps the
    last local block timestamp, the handlers still queued and the state of
    the timer. *)
Theorem init_resets_snapshot (callback : Callback) (w : World) :
  m_initState (node w) = NotInitialized ∨ m_initState (node w) = ShutDown ->
  let r := init callback w in
  let p := node w in
  let p' := node (world_of r) in
  log_of r = [] ∧ caller (world_of r) = caller w
  ∧ m_initState p' = Initializing ∧ m_workerThread p' = Spawned callback
  ∧ getPeerCount p' = 0 ∧ getLastLocalBlockHeight p' = 0
  ∧ getLastKnownBlockHeight p' = 0 ∧ m_lastKnowHash p' = null_hash
  ∧ getLastLocalBlockTimestamp p' = getLastLocalBlockTimestamp p
  ∧ m_ioService_stopped p' = false
  ∧ m_ioService_queue p' = m_ioService_queue p
  ∧ m_pullTimer p' = m_pullTimer p.
Proof.
  intros Hs. simpl. rewrite init_run, decide_True by done.
  unfold log_of, world_of. simpl. split_and!; done.
Qed.

Lemma init_resets_snapshot_witness :
  let down := world_of (shutdown synced_world) in
  let p' := node (world_of (init 8%nat down)) in
  (m_initState (node down) = ShutDown
   ∧ getLastLocalBlockHeight (node down) = 7
   ∧ getLastLocalBlockTimestamp (node down) = 9
   ∧ m_ioService_queue (node down) = [Task_pullTimer operation_aborted])
  ∧ getLastLocalBlockHeight p' = 0
  ∧ getLastLocalBlockTimestamp p' = getLastLocalBlockTimestamp (node down)
  ∧ m_ioService_queue p' = m_ioService_queue (node down).
Proof.
  split; [by vm_compute|].
  destruct (init_resets_snapshot 8%nat (world_of (shutdown synced_world)))
    as (_ & _ & _ & _ & _ & Hh & _ & _ & Hts & _ & Hq & _).
  { right. reflexivity. }
  split; [exact Hh|]. split; [exact Hts | exact Hq].
Defined.

(** X7.  An [init] right after another [init] is rejected whatever the
    state was: it invokes its callback with AlreadyInitialized and changes
    neither the proxy nor the storage of the callers. *)
Theorem second_init_is_rejected (first second : Callback) (w : World) :
  init second (world_of (init first w)) =
    (tt, world_of (init first w),
     [EvCallback second (make_error_code ALREADY_INITIALIZED)]).
Proof.
  rewrite (init_run second). rewrite decide_False; [done|].
  rewrite init_run. case_decide as H; unfold world_of; simpl; [|done].
  by intros [|].
Qed.

Section WorkerStart.
Variable parse_hash256 : string -> option hash.

(** X8.  The body of the worker thread, started in the state Initializing,
    invokes the initialization callback with success before anything
    else, then runs the first fire of the poller at once, and ends in the
    state Initialized, inside its loop, with a wait pending on the timer.
    Started in any other state it returns at once: no callback is invoked,
    no request is sent, and only the thread object changes (the lifecycle
    state, the snapshot, the queue, the stop flag and the timer stay). *)
Theorem workerThread_start (client : HttpClient) (callback : Callback) (w : World) :
  let r := workerThread parse_hash256 client callback w in
  let started := {| node := set_initState Initialized (node w); caller := caller w |} in
  if decide (m_initState (node w) = Initializing) then
    log_of r =
      EvCallback callback None
      :: log_of (pullNodeStatusAndScheduleTheNext parse_hash256 client started)
    ∧ m_initState (node (world_of r)) = Initialized
    ∧ m_workerThread (node (world_of r)) = InLoop
    ∧ m_pullTimer (node (world_of r)) = true
  else
    log_of r = []
    ∧ caller (world_of r) = caller w
    ∧ m_workerThread (node (world_of r)) = Exited
    ∧ m_initState (node (world_of r)) = m_initState (node w)
    ∧ snapshot (node (world_of r)) = snapshot (node w)
    ∧ m_ioService_queue (node (world_of r)) = m_ioService_queue (node w)
    ∧ m_ioService_stopped (node (world_of r)) = m_ioService_stopped (node w)
    ∧ m_pullTimer (node (world_of r)) = m_pullTimer (node w).
Proof.
  simpl. destruct w as [p m]. unfold workerThread. run_monad.
  case_decide as Hs.
  - rewrite Hs. simpl.
    pose proof (fire_frame parse_hash256 client
                  {| node := set_initState Initialized p; caller := m |}) as Hf.
    simpl in Hf. unfold world_of in Hf.
    destruct (pullNodeStatusAndScheduleTheNext _ _ _) as [[[] [p' m']] l'].
    simpl in *. destruct Hf as (Hl & _ & Ht). unfold lifecycle in Hl.
    injection Hl as Hst _. rewrite app_nil_r. done.
  - destruct (m_initState p) eqn:Hst; try done; simpl; by destruct p.
Qed.
End WorkerStart.

(** ** The loop: timer chains, shutdown, operations *)

Section LoopExtras.
Variable parse_hash256 : string -> option hash.

(** A fire leaves the queue as it was, up to the completion of a wait it
    cancels, and leaves one wait pending. *)
Lemma fire_queue (client : HttpClient) (w : World) :
  let p' := node (world_of (pullNodeStatusAndScheduleTheNext parse_hash256 client w)) in
  m_pullTimer p' = true
  ∧ m_ioService_queue p' =
    m_ioService_queue (node w)
    ++ (if m_pullTimer (node w) then [Task_pullTimer operation_aborted] else []).
Proof.
  simpl. rewrite pullNodeStatusAndScheduleTheNext_run. unfold world_of at 1 2. simpl.
  assert (m_pullTimer (node (world_of (updateNodeStatus parse_hash256 client w)))
            = m_pullTimer (node w)
          ∧ m_ioService_queue (node (world_of (updateNodeStatus parse_hash256 client w)))
            = m_ioService_queue (node w)) as [-> Hq].
  { rewrite updateNodeStatus_run. simpl.
    repeat first [case_match | case_decide];
      rewrite ?updatePeerCount_run; repeat case_match; done. }
  destruct (m_pullTimer (node w)); simpl; rewrite Hq; [done|].
  by rewrite app_nil_r.
Qed.

Lemma timer_tokens_queue (timer : bool) (q : list Task) (p : NodeRpcProxy) :
  m_pullTimer p = timer -> m_ioService_queue p = q ->
  timer_tokens p =
    ((if timer then 1 else 0)
     + length (List.filter (fun t => bool_decide (t = Task_pullTimer asio_success)) q))%nat.
Proof. unfold timer_tokens. by intros -> ->. Qed.

Lemma perform_tokens (a : LoopAction) (w : World) :
  (timer_tokens (node (world_of (perform parse_hash256 a w))) <= timer_tokens (node w))%nat.
Proof.
  destruct a; simpl.
  - unfold pullTimer_expire. rewrite complete_wait_run. unfold world_of, timer_tokens.
    simpl. destruct (m_pullTimer (node w)) eqn:Ht; simpl; rewrite ?Ht; [|lia].
    rewrite List.filter_app, length_app. simpl. lia.
  - rewrite run_one_run.
    destruct (m_ioService_stopped _); [unfold world_of; simpl; lia|].
    destruct (m_ioService_queue (node w)) as [|t q] eqn:Hq; [unfold world_of; simpl; lia|].
    rewrite (timer_tokens_queue (m_pullTimer (node w)) (t :: q) (node w)) by done.
    destruct (is_operation t) eqn:Ht.
    + destruct (run_operation_frame parse_hash256 client t
                  {| node := set_ioService_queue q (node w); caller := caller w |} Ht)
        as (m' & l & -> & _).
      unfold world_of, timer_tokens. simpl. case_bool_decide; simpl; lia.
    + destruct t as [[]| | | | |]; try discriminate; unfold run_task.
      * unfold pullTimer_handler. rewrite decide_True by done.
        destruct (fire_queue client
                    {| node := set_ioService_queue q (node w); caller := caller w |})
          as [Ht' Hq'].
        simpl in Ht', Hq'.
        rewrite (timer_tokens_queue _ _ _ Ht' Hq').
        rewrite List.filter_app, length_app. simpl.
        destruct (m_pullTimer (node w)); simpl; lia.
      * rewrite aborted_handler_is_inert. unfold world_of, timer_tokens. simpl. lia.
  - destruct (call_run c w) as (m' & l & [-> | (t & Hop & ->)] & _);
      [unfold world_of; simpl; lia|].
    unfold world_of, timer_tokens. simpl.
    rewrite List.filter_app, length_app. simpl.
    rewrite bool_decide_eq_false_2 by (intros ->; discriminate). simpl. lia.
  - unfold pullTimer_cancel. rewrite complete_wait_run. unfold world_of, timer_tokens.
    simpl. destruct (m_pullTimer (node w)) eqn:Ht; simpl; rewrite ?Ht; [|lia].
    rewrite List.filter_app, length_app. simpl. lia.
  - destruct w. unfold world_of, timer_tokens. simpl. lia.
Qed.

(** X9.  The chains of the pull timer never multiply: along every run of
    the loop the number of completions that can still lead to a fire (the
    pending wait and the completions ready with success) does not grow.  A
    proxy that starts with one wait pending has at most one fire ahead of
    it at any time. *)
Theorem timer_chains_never_multiply (w : World) (l : list Event) (w' : World) :
  steps parse_hash256 w l w' ->
  (timer_tokens (node w') <= timer_tokens (node w))%nat.
Proof.
  induction 1 as [|w1 l1 w2 l2 w3 Hstep _ IH]; [lia|].
  inversion Hstep; subst.
  pose proof (perform_tokens a w1). lia.
Qed.




End LoopExtras.

Lemma timer_chains_never_multiply_witness :
  let w1 := world_of (perform hex_parse_hash256 act_expire running_world) in
  let w2 := world_of (perform hex_parse_hash256 (act_run_one synced_daemon) w1) in
  steps hex_parse_hash256 running_world
    (log_of (perform hex_parse_hash256 act_expire running_world)
     ++ log_of (perform hex_parse_hash256 (act_run_one synced_daemon) w1) ++ [])
    w2
  ∧ timer_tokens (node running_world) = 1%nat
  ∧ (timer_tokens (node w2) <= 1)%nat.
Proof.
  assert (Hsteps :
    steps hex_parse_hash256 running_world
      (log_of (perform hex_parse_hash256 act_expire running_world)
       ++ log_of (perform hex_parse_hash256 (act_run_one synced_daemon)
                    (world_of (perform hex_parse_hash256 act_expire running_world)))
       ++ [])
      (world_of (perform hex_parse_hash256 (act_run_one synced_daemon)
                   (world_of (perform hex_parse_hash256 act_expire running_world))))).
  { eapply steps_cons; [apply step_perform|].
    eapply steps_cons; [apply step_perform | apply steps_refl]. }
  split; [exact Hsteps|]. split; [reflexivity|].
  exact (timer_chains_never_multiply hex_parse_hash256 _ _ _ Hsteps).
Defined.

(** ** What a queued operation does when it runs *)

Section OperationRuns.
Variable parse_hash256 : string -> option hash.

Lemma run_operation_log (client : HttpClient) (t : Task) (w : World) :
  is_operation t = true ->
  ∃ m',
    run_task parse_hash256 client t w =
      (tt, {| node := node w; caller := m' |},
       [request_of t; EvCallback (task_callback t) (dispatched client t w)]).
Proof.
  intros Ht. destruct w as [p m]. destruct t; try discriminate; simpl.
  - unfold doRelayTransaction. run_command; run_monad; by eexists.
  - unfold doGetRandomOutsByAmounts. run_command; run_monad; by eexists.
  - unfold doGetNewBlocks. run_command; run_monad; by eexists.
  - unfold doGetTransactionOutsGlobalIndices. run_command; run_monad; by eexists.
  - destruct (answer (binaryCommand (http_queryblocks client) "/queryblocks.bin"
                        {| qb_block_ids := knownBlockIds; qb_timestamp := timestamp |}
                        AUTO_VAL_INIT) {| node := p; caller := m |}) as [[e|] rsp] eqn:Ha.
    + unfold doQueryBlocks. unfold mbind at 1. unfold M_bind at 1.
      rewrite binaryCommand_log, Ha. run_monad. by eexists.
    + destruct (doQueryBlocks_run client knownBlockIds timestamp newBlocks startHeight
                  callback _ rsp Ha) as (m' & -> & _).
      by eexists.
Qed.

(** X11.  A queued operation that runs sends exactly one request, its own,
    and then invokes its callback exactly once, with the error code of
    that dispatcher call, be it an error or none.  It notifies no observer
    and leaves the proxy object as it is. *)
Theorem operation_calls_back_once (client : HttpClient) (t : Task) (w : World) :
  is_operation t = true ->
  let r := run_task parse_hash256 client t w in
  log_of r = [request_of t; EvCallback (task_callback t) (dispatched client t w)]
  ∧ node (world_of r) = node w.
Proof.
  intros Ht r. subst r.
  by destruct (run_operation_log client t w Ht) as (m' & ->).
Qed.

(** X12.  On a proxy that is Initialized, running and has nothing queued,
    an operation followed by one turn of the loop is carried out: the call
    itself logs nothing for the five operations that are queued, the turn
    of the loop sends their request, and over the two steps the callback of
    the operation is invoked exactly once; the queue is empty again
    afterwards. *)
Theorem operation_round_trip (client : HttpClient) (c : AsyncCall) (w : World) :
  idle (node w) ->
  let called := call c w in
  let ran := run_one parse_hash256 client (world_of called) in
  (∃ ec, callbacks (log_of called ++ log_of ran) = [EvCallback (callback_of c) ec])
  ∧ requests (log_of called) = []
  ∧ m_ioService_queue (node (world_of ran)) = []
  ∧ ∀ t, task_of c = Some t ->
      log_of called = []
      ∧ log_of ran =
        [request_of t;
         EvCallback (callback_of c)
           (dispatched client t
              {| node := node w; caller := caller w |})].
Proof.
  intros (Hs & Hstop & Hq). simpl.
  destruct w as [p m]. simpl in *.
  destruct (is_getPoolSymmetricDifference c) eqn:Hc.
  - destruct c; try discriminate. simpl.
    unfold getPoolSymmetricDifference. run_monad.
    rewrite run_one_run. simpl. rewrite Hstop, Hq. simpl.
    split_and!; try done. by eexists.
  - assert (∃ t, task_of c = Some t ∧ callback_of c = task_callback t
                 ∧ call c {| node := p; caller := m |} =
                   (tt, {| node := set_ioService_queue [t] p; caller := m |}, []))
      as (t & Htask & Hcb & Hcall).
    { destruct c; try discriminate; simpl;
        unfold relayTransaction, getRandomOutsByAmounts, getNewBlocks,
          getTransactionOutsGlobalIndices, queryBlocks;
        run_monad; unfold initialized; rewrite bool_decide_eq_true_2 by done; simpl;
        rewrite Hq; eexists; (split; [reflexivity | split; reflexivity]). }
    assert (is_operation t = true) as Hop.
    { destruct c; simpl in Htask; try discriminate; by injection Htask as <-. }
    assert (∃ m', run_one parse_hash256 client
                    {| node := set_ioService_queue [t] p; caller := m |} =
                  (tt, {| node := set_ioService_queue [] (set_ioService_queue [t] p);
                          caller := m' |},
                   [request_of t;
                    EvCallback (task_callback t)
                      (dispatched client t {| node := p; caller := m |})]))
      as (m' & Hran).
    { rewrite run_one_run. simpl. rewrite Hstop. simpl.
      destruct (run_operation_log client t
                  {| node := set_ioService_queue [] (set_ioService_queue [t] p);
                     caller := m |} Hop) as (m' & ->).
      exists m'. do 3 f_equal.
      destruct t; simpl; try done;
        first [by rewrite (jsonCommand_answer _ _ _ _ _ {| node := p; caller := m |})
              | by rewrite (binaryCommand_answer _ _ _ _ _ {| node := p; caller := m |})]. }
    rewrite Hcall.
    change (world_of (tt, {| node := set_ioService_queue [t] p; caller := m |},
                      @nil Event))
      with {| node := set_ioService_queue [t] p; caller := m |}.
    rewrite Hran, Hcb. unfold log_of, world_of. simpl.
    split_and!; try done.
    + eexists. destruct t; try discriminate; done.
    + intros t' Ht'. rewrite Htask in Ht'. by injection Ht' as <-.
Qed.
End OperationRuns.

(** ** What becomes of the queue at a shutdown *)


Section ShutdownQueue.
Variable parse_hash256 : string -> option hash.


End ShutdownQueue.


Lemma operation_calls_back_once_witness :
  let t := Task_doGetNewBlocks [null_hash] 1%nat 2%nat 5%nat in
  let r := run_task hex_parse_hash256 serving_daemon t world0 in
  is_operation t = true
  ∧ log_of r = [EvRequest BinaryCall "/getblocks.bin"; EvCallback 5%nat None]
  ∧ node (world_of r) = node world0.
Proof.
  split; [reflexivity|].
  exact (operation_calls_back_once hex_parse_hash256 serving_daemon
           (Task_doGetNewBlocks [null_hash] 1%nat 2%nat 5%nat) world0 eq_refl).
Defined.

Lemma operation_round_trip_witness :
  let c := call_relayTransaction "0a0b" 3%nat in
  let called := call c running_world in
  let ran := run_one hex_parse_hash256 serving_daemon (world_of called) in
  idle (node running_world)
  ∧ requests (log_of called) = []
  ∧ m_ioService_queue (node (world_of ran)) = []
  ∧ log_of ran = [EvRequest JsonCall "/sendrawtransaction"; EvCallback 3%nat None].
Proof.
  assert (Hidle : idle (node running_world)) by (split_and!; reflexivity).
  split; [exact Hidle|].
  destruct (operation_round_trip hex_parse_hash256 serving_daemon
              (call_relayTransaction "0a0b" 3%nat) running_world Hidle)
    as (_ & Hreq & Hq & Hlog).
  split; [exact Hreq|]. split; [exact Hq|].
  exact (proj2 (Hlog _ eq_refl)).
Defined.

(** ** What a successful operation leaves in the storage of its caller *)

(** Reading a cell after a write: the cell written holds the value, any
    other cell holds what it held. *)
Ltac written :=
  first [ done
        | by rewrite fn_lookup_insert
        | intros ? ?; by rewrite fn_lookup_insert_ne ].

(** X13.  When the get-blocks call succeeds, the list of the caller holds
    exactly the blocks of the response, whatever it held before, and the
    start height of the caller is that of the response.  Nothing else in
    the storage of the callers changes, the proxy object is left alone and
    the callback is invoked once, with no error. *)
Theorem doGetNewBlocks_success (client : HttpClient) (knownBlockIds : list hash)
    (newBlocks startHeight : Ref) (callback : Callback) (w : World)
    (rsp : GET_BLOCKS_FAST_response) :
  answer (binaryCommand (http_getblocks client) "/getblocks.bin"
            {| gbf_block_ids := knownBlockIds |} AUTO_VAL_INIT) w = (None, rsp) ->
  let r := doGetNewBlocks client knownBlockIds newBlocks startHeight callback w in
  let m := caller w in
  let m' := caller (world_of r) in
  mem_blocks m' newBlocks = blocks rsp
  ∧ mem_uint64 m' startHeight = gbf_start_height rsp
  ∧ (∀ r', r' ≠ newBlocks -> mem_blocks m' r' = mem_blocks m r')
  ∧ (∀ r', r' ≠ startHeight -> mem_uint64 m' r' = mem_uint64 m r')
  ∧ mem_outs m' = mem_outs m ∧ mem_entries m' = mem_entries m
  ∧ mem_indices m' = mem_indices m ∧ mem_bool m' = mem_bool m
  ∧ node (world_of r) = node w
  ∧ callbacks (log_of r) = [EvCallback callback None].
Proof.
  intros Ha. simpl.
  assert (Hrun : doGetNewBlocks client knownBlockIds newBlocks startHeight callback w =
            (tt, {| node := node w; caller := store_uint64 startHeight (gbf_start_height rsp)
                         (store_blocks newBlocks (blocks rsp) (caller w)) |},
             [EvRequest BinaryCall "/getblocks.bin"; EvCallback callback None])).
  { destruct w as [p m]. unfold doGetNewBlocks.
    unfold mbind at 1. unfold M_bind at 1. rewrite binaryCommand_log, Ha.
    by run_monad. }
  rewrite Hrun. unfold world_of, log_of. simpl. split_and!; written.
Qed.

(** X14.  When the random-outputs call succeeds, the vector of the caller
    holds exactly the outputs of the response, whatever it held before;
    nothing else in the storage of the callers changes, the proxy object is
    left alone and the callback is invoked once, with no error. *)
Theorem doGetRandomOutsByAmounts_success (client : HttpClient) (amounts : list Z)
    (outsCount : Z) (outs_ref : Ref) (callback : Callback) (w : World)
    (rsp : GET_RANDOM_OUTPUTS_FOR_AMOUNTS_response) :
  answer (binaryCommand (http_getrandom_outs client) "/getrandom_outs.bin"
            {| amounts := amounts; outs_count := outsCount |} AUTO_VAL_INIT) w
    = (None, rsp) ->
  let r := doGetRandomOutsByAmounts client amounts outsCount outs_ref callback w in
  let m := caller w in
  let m' := caller (world_of r) in
  mem_outs m' outs_ref = outs rsp
  ∧ (∀ r', r' ≠ outs_ref -> mem_outs m' r' = mem_outs m r')
  ∧ mem_blocks m' = mem_blocks m ∧ mem_entries m' = mem_entries m
  ∧ mem_uint64 m' = mem_uint64 m
  ∧ mem_indices m' = mem_indices m ∧ mem_bool m' = mem_bool m
  ∧ node (world_of r) = node w
  ∧ callbacks (log_of r) = [EvCallback callback None].
Proof.
  intros Ha. simpl.
  assert (Hrun : doGetRandomOutsByAmounts client amounts outsCount outs_ref callback w =
            (tt, {| node := node w; caller := store_outs outs_ref (outs rsp) (caller w) |},
             [EvRequest BinaryCall "/getrandom_outs.bin"; EvCallback callback None])).
  { destruct w as [p m]. unfold doGetRandomOutsByAmounts.
    unfold mbind at 1. unfold M_bind at 1. rewrite binaryCommand_log, Ha.
    by run_monad. }
  rewrite Hrun. unfold world_of, log_of. simpl. split_and!; written.
Qed.

(** X15.  When the output-indexes call succeeds, the vector of the caller
    holds exactly the indexes of the response, whatever it held before;
    nothing else in the storage of the callers changes, the proxy object is
    left alone and the callback is invoked once, with no error. *)
Theorem doGetTransactionOutsGlobalIndices_success (client : HttpClient)
    (transactionHash : hash) (outsGlobalIndices : Ref) (callback : Callback)
    (w : World) (rsp : GET_TX_GLOBAL_OUTPUTS_INDEXES_response) :
  answer (binaryCommand (http_get_o_indexes client) "/get_o_indexes.bin"
            {| txid := transactionHash |} AUTO_VAL_INIT) w = (None, rsp) ->
  let r := doGetTransactionOutsGlobalIndices client transactionHash outsGlobalIndices
             callback w in
  let m := caller w in
  let m' := caller (world_of r) in
  mem_indices m' outsGlobalIndices = o_indexes rsp
  ∧ (∀ r', r' ≠ outsGlobalIndices -> mem_indices m' r' = mem_indices m r')
  ∧ mem_outs m' = mem_outs m ∧ mem_blocks m' = mem_blocks m
  ∧ mem_entries m' = mem_entries m ∧ mem_uint64 m' = mem_uint64 m
  ∧ mem_bool m' = mem_bool m
  ∧ node (world_of r) = node w
  ∧ callbacks (log_of r) = [EvCallback callback None].
Proof.
  intros Ha. simpl.
  assert (Hrun : doGetTransactionOutsGlobalIndices client transactionHash outsGlobalIndices callback w =
            (tt, {| node := node w; caller := store_indices outsGlobalIndices (o_indexes rsp) (caller w) |},
             [EvRequest BinaryCall "/get_o_indexes.bin"; EvCallback callback None])).
  { destruct w as [p m]. unfold doGetTransactionOutsGlobalIndices.
    unfold mbind at 1. unfold M_bind at 1. rewrite binaryCommand_log, Ha.
    by run_monad. }
  rewrite Hrun. unfold world_of, log_of. simpl. split_and!; written.
Qed.

Lemma doGetNewBlocks_success_witness :
  let r := doGetNewBlocks serving_daemon [null_hash] 1%nat 2%nat 5%nat used_world in
  (answer (binaryCommand (http_getblocks serving_daemon) "/getblocks.bin"
             {| gbf_block_ids := [null_hash] |} AUTO_VAL_INIT) used_world
     = (None, {| blocks := [{| bce_block := "block"; bce_txs := ["tx"] |}];
                 gbf_start_height := 10; gbf_status := "OK" |})
   ∧ mem_blocks (caller used_world) 1%nat = [{| bce_block := "old"; bce_txs := [] |}])
  ∧ mem_blocks (caller (world_of r)) 1%nat = [{| bce_block := "block"; bce_txs := ["tx"] |}]
  ∧ mem_uint64 (caller (world_of r)) 2%nat = 10.
Proof.
  split; [split; reflexivity|].
  destruct (doGetNewBlocks_success serving_daemon [null_hash] 1%nat 2%nat 5%nat
              used_world _ eq_refl) as (Hb & Hh & _).
  split; [exact Hb | exact Hh].
Defined.

Lemma doGetRandomOutsByAmounts_success_witness :
  let r := doGetRandomOutsByAmounts serving_daemon [5] 3 1%nat 5%nat used_world in
  (answer (binaryCommand (http_getrandom_outs serving_daemon) "/getrandom_outs.bin"
             {| amounts := [5]; outs_count := 3 |} AUTO_VAL_INIT) used_world
     = (None, {| outs := [{| ofa_amount := 5; ofa_outs := [] |}]; gro_status := "OK" |})
   ∧ mem_outs (caller used_world) 1%nat = [{| ofa_amount := 1; ofa_outs := [] |}])
  ∧ mem_outs (caller (world_of r)) 1%nat = [{| ofa_amount := 5; ofa_outs := [] |}].
Proof.
  split; [split; reflexivity|].
  destruct (doGetRandomOutsByAmounts_success serving_daemon [5] 3 1%nat 5%nat
              used_world _ eq_refl) as (Ho & _).
  exact Ho.
Defined.

Lemma doGetTransactionOutsGlobalIndices_success_witness :
  let r := doGetTransactionOutsGlobalIndices serving_daemon null_hash 1%nat 5%nat
             used_world in
  (answer (binaryCommand (http_get_o_indexes serving_daemon) "/get_o_indexes.bin"
             {| txid := null_hash |} AUTO_VAL_INIT) used_world
     = (None, {| o_indexes := [4; 2]; gto_status := "OK" |})
   ∧ mem_indices (caller used_world) 1%nat = [9])
  ∧ mem_indices (caller (world_of r)) 1%nat = [4; 2].
Proof.
  split; [split; reflexivity|].
  destruct (doGetTransactionOutsGlobalIndices_success serving_daemon null_hash 1%nat
              5%nat used_world _ eq_refl) as (Hi & _).
  exact Hi.
Defined.

Lemma doQueryBlocks_memory (client : HttpClient) (knownBlockIds : list hash)
    (timestamp : Z) (newBlocks startHeight : Ref) (callback : Callback)
    (w : World) (rsp : QUERY_BLOCKS_response) :
  answer (binaryCommand (http_queryblocks client) "/queryblocks.bin"
            {| qb_block_ids := knownBlockIds; qb_timestamp := timestamp |}
            AUTO_VAL_INIT) w = (None, rsp) ->
  ∃ m',
    doQueryBlocks client knownBlockIds timestamp newBlocks startHeight callback w =
      (tt, {| node := node w; caller := m' |},
       [EvRequest BinaryCall "/queryblocks.bin"; EvCallback callback None])
    ∧ mem_entries m' newBlocks =
        mem_entries (caller w) newBlocks ++ map entry_of (items rsp)
    ∧ (∀ r', r' ≠ newBlocks -> mem_entries m' r' = mem_entries (caller w) r')
    ∧ mem_uint64 m' = <[startHeight := qb_start_height rsp]> (mem_uint64 (caller w))
    ∧ mem_outs m' = mem_outs (caller w)
    ∧ mem_blocks m' = mem_blocks (caller w)
    ∧ mem_indices m' = mem_indices (caller w)
    ∧ mem_bool m' = mem_bool (caller w).
Proof.
  intros Ha. unfold doQueryBlocks.
  unfold mbind at 1. unfold M_bind at 1.
  rewrite binaryCommand_log, Ha. simpl.
  unfold mbind at 1. unfold M_bind at 1.
  unfold mbind at 1. unfold M_bind at 1.
  pose proof (for_each_push_back newBlocks entry_of (items rsp) w) as H.
  simpl in H. unfold world_of, log_of in H.
  change (fun item : block_full_info => push_back_entry newBlocks (entry_of item))
    with (fun item : block_full_info => push_back_entry newBlocks
            {| blockHash := block_id item; block := bfi_block item; txs := bfi_txs item |})
    in H.
  destruct (for_each (items rsp) _ w) as [[[] w1] l1]. simpl in H.
  destruct H as (Hn & -> & He & Hother & Ho & Hb & Hu & Hi & Hbool).
  run_monad. rewrite Hn. eexists. split; [reflexivity|]. simpl.
  rewrite Hu. split_and!; done.
Qed.

(** X16.  [doQueryBlocks] adds to the list of the caller and never clears
    it: after two successful calls on the same list it holds what it held
    before, then the entries of the first response, then those of the
    second, and the start height is that of the second response.  No other
    cell of the storage of the callers changes. *)
Theorem doQueryBlocks_accumulates (client1 client2 : HttpClient)
    (ids1 ids2 : list hash) (timestamp1 timestamp2 : Z) (newBlocks startHeight : Ref)
    (callback1 callback2 : Callback) (w : World) (rsp1 rsp2 : QUERY_BLOCKS_response) :
  answer (binaryCommand (http_queryblocks client1) "/queryblocks.bin"
            {| qb_block_ids := ids1; qb_timestamp := timestamp1 |} AUTO_VAL_INIT) w
    = (None, rsp1) ->
  answer (binaryCommand (http_queryblocks client2) "/queryblocks.bin"
            {| qb_block_ids := ids2; qb_timestamp := timestamp2 |} AUTO_VAL_INIT) w
    = (None, rsp2) ->
  let w1 := world_of (doQueryBlocks client1 ids1 timestamp1 newBlocks startHeight
                        callback1 w) in
  let w2 := world_of (doQueryBlocks client2 ids2 timestamp2 newBlocks startHeight
                        callback2 w1) in
  let m := caller w in
  let m' := caller w2 in
  mem_entries m' newBlocks =
    mem_entries m newBlocks
    ++ map entry_of (items rsp1) ++ map entry_of (items rsp2)
  ∧ mem_uint64 m' startHeight = qb_start_height rsp2
  ∧ (∀ r', r' ≠ newBlocks -> mem_entries m' r' = mem_entries m r')
  ∧ (∀ r', r' ≠ startHeight -> mem_uint64 m' r' = mem_uint64 m r')
  ∧ mem_outs m' = mem_outs m ∧ mem_blocks m' = mem_blocks m
  ∧ mem_indices m' = mem_indices m ∧ mem_bool m' = mem_bool m
  ∧ node w2 = node w.
Proof.
  intros Ha1 Ha2. simpl.
  destruct (doQueryBlocks_memory client1 ids1 timestamp1 newBlocks startHeight
              callback1 w rsp1 Ha1)
    as (m1 & -> & He1 & Hr1 & Hu1 & Ho1 & Hb1 & Hi1 & Hbool1).
  unfold world_of at 2 4 6 8 10 12 14 16 18. simpl.
  rewrite (binaryCommand_answer _ _ _ _ w {| node := node w; caller := m1 |}) in Ha2.
  destruct (doQueryBlocks_memory client2 ids2 timestamp2 newBlocks startHeight
              callback2 _ rsp2 Ha2)
    as (m2 & -> & He2 & Hr2 & Hu2 & Ho2 & Hb2 & Hi2 & Hbool2).
  unfold world_of. simpl in *.
  split_and!; try congruence.
  - by rewrite He2, He1, <- app_assoc.
  - by rewrite Hu2, fn_lookup_insert.
  - intros r' Hr'. by rewrite Hr2, Hr1.
  - intros r' Hr'. by rewrite Hu2, Hu1, !fn_lookup_insert_ne.
Qed.

Lemma doQueryBlocks_accumulates_witness :
  let w1 := world_of (doQueryBlocks serving_daemon [null_hash] 0 1%nat 2%nat 5%nat
                        used_world) in
  let w2 := world_of (doQueryBlocks serving_daemon [] 7 1%nat 2%nat 6%nat w1) in
  answer (binaryCommand (http_queryblocks serving_daemon) "/queryblocks.bin"
            {| qb_block_ids := [null_hash]; qb_timestamp := 0 |} AUTO_VAL_INIT) used_world
    = (None, {| qb_status := "OK"; qb_start_height := 42;
                items := [{| block_id := null_hash; bfi_block := "b1";
                             bfi_txs := ["t1"] |}] |})
  ∧ mem_entries (caller w2) 1%nat =
      [{| blockHash := null_hash; block := "old"; txs := [] |};
       {| blockHash := null_hash; block := "b1"; txs := ["t1"] |};
       {| blockHash := null_hash; block := "b1"; txs := ["t1"] |}]
  ∧ mem_uint64 (caller w2) 2%nat = 42.
Proof.
  split; [reflexivity|].
  destruct (doQueryBlocks_accumulates serving_daemon serving_daemon [null_hash] []
              0 7 1%nat 2%nat 5%nat 6%nat used_world _ _ eq_refl eq_refl)
    as (He & Hh & _).
  split; [exact He | exact Hh].
Defined.

(** ** Who talks to the daemon, and who is called back *)

Section Boundaries.
Variable parse_hash256 : string -> option hash.

(** X17.  A fire of the poller never invokes a callback and never writes
    the storage of a caller.  It sends the header request and at most the
    get-info request after it, nothing else; it sends at most three
    notifications; it keeps the lifecycle state, the thread object and the
    stop flag, and it leaves a wait pending on the timer. *)
Theorem fire_keeps_to_itself (client : HttpClient) (w : World) :
  let fire := pullNodeStatusAndScheduleTheNext parse_hash256 client w in
  callbacks (log_of fire) = []
  ∧ caller (world_of fire) = caller w
  ∧ (requests (log_of fire) = [EvRequest JsonRpcCall "getlastblockheader"]
     ∨ requests (log_of fire) =
         [EvRequest JsonRpcCall "getlastblockheader"; EvRequest JsonCall "/getinfo"])
  ∧ (length (notifications (log_of fire)) <= 3)%nat
  ∧ lifecycle (node (world_of fire)) = lifecycle (node w)
  ∧ m_ioService_stopped (node (world_of fire)) = m_ioService_stopped (node w)
  ∧ m_pullTimer (node (world_of fire)) = true.
Proof.
  simpl.
  destruct (fire_run parse_hash256 client w) as (_ & _ & Hl & Hc).
  destruct (fire_frame parse_hash256 client w) as (Hlife & Hstop & Ht).
  rewrite Hl. clear Hl.
  split_and!; try done.
  - destruct (new_block _ _ _) as [[? ?]|], (reaches_getinfo _ _ _),
      (new_peer_count _ _ _); done.
  - destruct (new_block _ _ _) as [[? ?]|], (reaches_getinfo _ _ _),
      (new_peer_count _ _ _); simpl; auto.
  - destruct (new_block _ _ _) as [[? ?]|], (reaches_getinfo _ _ _),
      (new_peer_count _ _ _); simpl; lia.
Qed.

(** X18.  While the state is Initialized, each of relayTransaction,
    getRandomOutsByAmounts, getNewBlocks, getTransactionOutsGlobalIndices
    and queryBlocks only puts its handler at the end of the queue: it
    invokes no callback, sends no request, writes no storage of a caller,
    and leaves the handlers already queued, the timer and the snapshot as
    they were. *)
Theorem async_call_enqueues (c : AsyncCall) (w : World) (t : Task) :
  m_initState (node w) = Initialized ->
  task_of c = Some t ->
  call c w =
    (tt,
     {| node := set_ioService_queue (m_ioService_queue (node w) ++ [t]) (node w);
        caller := caller w |},
     []).
Proof.
  intros Hs Hc. destruct w as [p m]. simpl in Hs.
  destruct c; simpl in Hc; try discriminate; injection Hc as <-; simpl;
    unfold relayTransaction, getRandomOutsByAmounts, getNewBlocks,
      getTransactionOutsGlobalIndices, queryBlocks;
    run_monad; unfold initialized; by rewrite bool_decide_eq_true_2.
Qed.

(** X19.  Only the worker talks to the daemon: no public operation, in any
    state, and neither [init] nor [shutdown], nor the expiry or the
    cancellation of the timer or the stopping of the loop, sends a request
    or notifies an observer. *)
Theorem only_the_worker_talks_to_the_daemon (w : World) :
  (∀ c, requests (log_of (call c w)) = [] ∧ notifications (log_of (call c w)) = [])
  ∧ (∀ callback, requests (log_of (init callback w)) = []
                 ∧ notifications (log_of (init callback w)) = [])
  ∧ requests (log_of (shutdown w)) = [] ∧ notifications (log_of (shutdown w)) = []
  ∧ log_of (pullTimer_expire w) = []
  ∧ log_of (pullTimer_cancel w) = []
  ∧ log_of (ioService_stop w) = [].
Proof.
  split_and!.
  - intros c. destruct w as [p m].
    destruct c; simpl;
      unfold relayTransaction, getRandomOutsByAmounts, getNewBlocks,
        getTransactionOutsGlobalIndices, queryBlocks, getPoolSymmetricDifference;
      run_monad; try done; by destruct (initialized (m_initState p)).
  - intros callback. rewrite init_run. by case_decide.
  - rewrite shutdown_run. by case_decide.
  - rewrite shutdown_run. by case_decide.
  - unfold pullTimer_expire. by rewrite complete_wait_run.
  - unfold pullTimer_cancel. by rewrite complete_wait_run.
  - by destruct w.
Qed.
End Boundaries.

Lemma async_call_enqueues_witness :
  let c := call_getNewBlocks [null_hash] 1%nat 2%nat 5%nat in
  let t := Task_doGetNewBlocks [null_hash] 1%nat 2%nat 5%nat in
  (m_initState (node busy_world) = Initialized ∧ task_of c = Some t)
  ∧ log_of (call c busy_world) = []
  ∧ m_ioService_queue (node (world_of (call c busy_world))) =
      [Task_doRelayTransaction "0a0b" 3%nat; t].
Proof.
  split; [split; reflexivity|].
  rewrite (async_call_enqueues
             (call_getNewBlocks [null_hash] 1%nat 2%nat 5%nat) busy_world
             (Task_doGetNewBlocks [null_hash] 1%nat 2%nat 5%nat) eq_refl eq_refl).
  split; reflexivity.
Defined.
